(** * Sunerdsapp: the financial projection of [SolarAudit]

    A shallow embedding of [SolarAudit.add_financial_data] and
    [SolarAudit.calculate_detailed_financials] (src/sunerdsapp.py) together
    with the properties of the projection that the specification states.

    The projection is embedded twice, for two kinds of statements.
    - The exact model (this first part). A Python [float] is an exact
      rational ([Q]) and [round(x, n)] rounds to [n] decimals, ties to the
      even neighbour: the arithmetic in which the specification writes its
      formulas. Overflow and binary rounding error are not represented. It
      carries the statements that do not depend on them: which columns the
      code reads, the stored rows, the errors, and the order of the recorded
      values, which rounding to the nearest double preserves.
    - The module [Double] (after it). A Python [float] is an IEEE 754
      binary64 number and every operation of the source is the operation on
      doubles. It carries the statements about the values the report
      records, which are then the doubles the code records.

    In both:
    - A Python [int] is a [Z].
    - A raised exception ends the call: the methods return a [result].
    - The sqlite connection is the list of rows of the table
      [financial_data]; a fetched row is a positional tuple of column
      values, in the order of the [CREATE TABLE] statement. *)

From Stdlib Require Import ZArith QArith Qround Qpower Qabs Lia Lqa List Bool String.
From Stdlib Require Import Setoid Morphisms.
Import ListNotations.

Open Scope Q_scope.

(** ** Exceptions and results *)

Inductive exn : Type :=
| ValueError (msg : string)
| ZeroDivisionError.

(** The name of the Python class of a raised exception. *)
Definition exn_class (e : exn) : string :=
  match e with
  | ValueError _ => "ValueError"%string
  | ZeroDivisionError => "ZeroDivisionError"%string
  end.

Inductive result (A : Type) : Type :=
| Ok (a : A)
| Raise (e : exn).

Arguments Ok {A} a.
Arguments Raise {A} e.

Definition bind {A B : Type} (m : result A) (k : A -> result B) : result B :=
  match m with
  | Ok a => k a
  | Raise e => Raise e
  end.

Notation "x <- m ;; k" := (bind m (fun x => k))
  (at level 61, m at next level, right associativity).

(** ** Python arithmetic *)

(** [x / y] on numbers: raises on a zero divisor. *)
Definition py_div (x y : Q) : result Q :=
  if Qeq_bool y 0 then Raise ZeroDivisionError else Ok (x / y).

(** [x > 0]. *)
Definition gt0 (x : Q) : bool := negb (Qle_bool x 0).

(** Nearest integer, ties to even. *)
Definition round_half_even (q : Q) : Z :=
  let f := Qfloor q in
  match Qcompare (q - inject_Z f) (1 # 2) with
  | Lt => f
  | Gt => (f + 1)%Z
  | Eq => if Z.even f then f else (f + 1)%Z
  end.

(** [round(x, ndigits)] for [ndigits >= 0]. *)
Definition py_round (x : Q) (ndigits : nat) : Q :=
  let scale := (10 ^ Z.of_nat ndigits)%Z in
  inject_Z (round_half_even (x * inject_Z scale)) / inject_Z scale.

(** A rational that is a whole number. *)
Definition is_integral (q : Q) : bool :=
  Qeq_bool q (inject_Z (Qfloor q)).

(** ** Values of a fetched row *)

Inductive pyval : Type :=
| PyInt (z : Z)
| PyFloat (q : Q)
| PyStr (s : string).

(** The number a value stands for in arithmetic. Only the numeric columns
    of a row are ever used in arithmetic (see [getitem_numeric]). *)
Definition num (v : pyval) : Q :=
  match v with
  | PyInt z => inject_Z z
  | PyFloat q => q
  | PyStr _ => 0
  end.

(** [t[i]] on a tuple. *)
Definition getitem (t : list pyval) (i : nat) : pyval :=
  nth i t (PyStr EmptyString).

(** ** The table [financial_data] *)

(** One stored row; the fields are the columns of the schema, with the
    type the column's affinity gives them. [timestamp] is the text
    that sqlite3 stores for a [datetime]. *)
Record financial_row : Type := mk_financial_row {
  id : Z;
  property_id : Z;
  electricity_rate : Q;
  installation_cost_per_watt : Q;
  incentives : Q;
  financing_rate : Q;
  financing_term : Z;
  maintenance_cost_annual : Q;
  electricity_price_increase : Q;
  timestamp : string
}.

(** The connection, reduced to the table the projection reads. *)
Definition connection : Type := list financial_row.

(** The tuple [SELECT *] yields for a row: every column, in the order of
    [CREATE TABLE financial_data]. *)
Definition select_star (r : financial_row) : list pyval :=
  [ PyInt (id r);
    PyInt (property_id r);
    PyFloat (electricity_rate r);
    PyFloat (installation_cost_per_watt r);
    PyFloat (incentives r);
    PyFloat (financing_rate r);
    PyInt (financing_term r);
    PyFloat (maintenance_cost_annual r);
    PyFloat (electricity_price_increase r);
    PyStr (timestamp r) ].

(** The row id given to an inserted row: one more than the largest. *)
Definition next_rowid (conn : connection) : Z :=
  (fold_right Z.max 0 (map id conn) + 1)%Z.

(** [add_financial_data]: appends a row; [now] is [datetime.now()]. *)
Definition add_financial_data (conn : connection) (now : string)
    (property_id : Z) (electricity_rate installation_cost_per_watt : Q)
    (incentives financing_rate : Q) (financing_term : Z)
    (maintenance_cost_annual electricity_price_increase : Q) : connection :=
  conn ++ [ mk_financial_row (next_rowid conn) property_id electricity_rate
              installation_cost_per_watt incentives financing_rate
              financing_term maintenance_cost_annual
              electricity_price_increase now ].

(** [ORDER BY timestamp DESC LIMIT 1] over the rows kept by the [WHERE]
    clause: a row with the greatest timestamp (the earliest inserted one
    among equals). *)
Fixpoint latest (rows : list financial_row) : option financial_row :=
  match rows with
  | [] => None
  | r :: rest =>
      match latest rest with
      | None => Some r
      | Some r' =>
          match String.compare (timestamp r') (timestamp r) with
          | Gt => Some r'
          | _ => Some r
          end
      end
  end.

(** [cursor.execute('SELECT * ... WHERE property_id = ? ...'); fetchone()] *)
Definition fetchone (conn : connection) (pid : Z) : option (list pyval) :=
  option_map select_star
    (latest (filter (fun r => Z.eqb (property_id r) pid) conn)).

(** ** The result of the projection *)

(** One entry of ["yearly_analysis"]. *)
Record year_entry : Type := mk_year_entry {
  year : Z;
  production_kwh : Q;
  entry_electricity_rate : Q;   (* key ["electricity_rate"] *)
  yearly_savings : Q;
  cumulative_savings : Q;
  roi_percentage : Q
}.

(** ["system_details"]. *)
Record system_details : Type := mk_system_details {
  size_kw : Q;
  sd_base_cost : Q;             (* key ["base_cost"] *)
  sd_incentives : Q;            (* key ["incentives"] *)
  sd_net_cost : Q               (* key ["net_cost"] *)
}.

(** ["financing"], when it is not [None]. *)
Record financing_details : Type := mk_financing_details {
  monthly_payment : Q;
  total_payments : Q;
  total_interest : Q
}.

(** ["summary"]. *)
Record summary : Type := mk_summary {
  total_25_year_savings : Q;
  average_annual_savings : Q;
  break_even_year : option Z
}.

Record report : Type := mk_report {
  rep_system_details : system_details;
  financing : option financing_details;
  yearly_analysis : list year_entry;
  rep_summary : summary
}.

(** The variables the loop of the projection carries from year to year. *)
Record loop_state : Type := mk_loop_state {
  st_cumulative_savings : Q;
  st_electricity_rate : Q;
  st_yearly_analysis : list year_entry
}.

(** [range(lo, hi)] *)
Definition range (lo hi : Z) : list Z :=
  map (fun k => (lo + Z.of_nat k)%Z) (seq 0 (Z.to_nat (hi - lo))).

(** [next((y["year"] for y in yearly_analysis
          if y["cumulative_savings"] >= net_cost), None)] *)
Definition first_break_even (yearly_analysis : list year_entry) (net_cost : Q)
  : option Z :=
  option_map year
    (find (fun y => Qle_bool net_cost (cumulative_savings y)) yearly_analysis).

Section Projection.

(** [calculate_solar_potential] is called by the projection but is not
    defined in the class: its result ["annual_potential_kwh"] for a
    property is taken as given. *)
Variable calculate_solar_potential : Z -> Q.

(** The C library's [pow], used by [**] when the exponent is not a whole
    number; its values are not rational in general and are taken as given. *)
Variable libm_pow : Q -> Q -> Q.

(** [b ** e] on floats. *)
Definition py_pow (b e : Q) : Q :=
  if is_integral e then Qpower b (Qfloor e) else libm_pow b e.

(** *** The locals of [calculate_detailed_financials] *)

Definition system_size_kw (annual_production : Q) : Q :=
  annual_production / (365 * 4).

Definition base_cost (financial_data : list pyval) (annual_production : Q) : Q :=
  system_size_kw annual_production * 1000 * num (getitem financial_data 2).

Definition net_cost (financial_data : list pyval) (annual_production : Q) : Q :=
  base_cost financial_data annual_production - num (getitem financial_data 3).

(** [production = annual_production * (1 - 0.005 * year)] *)
Definition production (annual_production : Q) (year : Z) : Q :=
  annual_production * (1 - (5 # 1000) * inject_Z year).

(** [roi = (cumulative_savings / net_cost) * 100 if net_cost > 0 else 0] *)
Definition roi (cumulative_savings net_cost : Q) : Q :=
  if gt0 net_cost then (cumulative_savings / net_cost) * 100 else 0.

(** The body of [for year in range(1, years + 1)]. *)
Definition loop_body (financial_data : list pyval)
    (annual_production net_cost : Q) (st : loop_state) (year : Z)
  : loop_state :=
  let production := production annual_production year in
  let savings := production * st_electricity_rate st in
  let net_savings := savings - num (getitem financial_data 6) in
  let cumulative_savings := st_cumulative_savings st + net_savings in
  let roi := roi cumulative_savings net_cost in
  let electricity_rate :=
    st_electricity_rate st * (1 + num (getitem financial_data 7)) in
  mk_loop_state cumulative_savings electricity_rate
    (st_yearly_analysis st ++
       [ mk_year_entry year
           (py_round production 2)
           (py_round electricity_rate 3)
           (py_round net_savings 2)
           (py_round cumulative_savings 2)
           (py_round roi 2) ]).

(** The state before the loop. *)
Definition loop_init (financial_data : list pyval) : loop_state :=
  mk_loop_state 0 (num (getitem financial_data 1)) [].

(** The state after the years [1 .. n]. *)
Definition loop_upto (financial_data : list pyval) (annual_production : Q)
    (n : Z) : loop_state :=
  fold_left
    (loop_body financial_data annual_production
       (net_cost financial_data annual_production))
    (range 1 (n + 1)) (loop_init financial_data).

(** The financing block. *)
Definition financing_of (financial_data : list pyval) (net_cost : Q)
  : result (option financing_details) :=
  if gt0 (num (getitem financial_data 4)) && gt0 (num (getitem financial_data 5))
  then
    let monthly_rate := num (getitem financial_data 4) / 12 / 100 in
    let num_payments := num (getitem financial_data 5) * 12 in
    monthly_payment <-
      py_div (net_cost * monthly_rate * py_pow (1 + monthly_rate) num_payments)
             (py_pow (1 + monthly_rate) num_payments - 1) ;;
    Ok (Some (mk_financing_details
                (py_round monthly_payment 2)
                (py_round (monthly_payment * num_payments) 2)
                (py_round (monthly_payment * num_payments - net_cost) 2)))
  else Ok None.

(** [calculate_detailed_financials(property_id, years)] *)
Definition calculate_detailed_financials (conn : connection)
    (property_id years : Z) : result report :=
  match fetchone conn property_id with
  | None => Raise (ValueError "Financial data not found for property")
  | Some financial_data =>
      let annual_production := calculate_solar_potential property_id in
      let system_size_kw := system_size_kw annual_production in
      let base_cost := base_cost financial_data annual_production in
      let net_cost := net_cost financial_data annual_production in
      let st := loop_upto financial_data annual_production years in
      financing_details <- financing_of financial_data net_cost ;;
      average <- py_div (st_cumulative_savings st) (inject_Z years) ;;
      Ok (mk_report
            (mk_system_details
               (py_round system_size_kw 2)
               (py_round base_cost 2)
               (py_round (num (getitem financial_data 3)) 2)
               (py_round net_cost 2))
            financing_details
            (st_yearly_analysis st)
            (mk_summary
               (py_round (st_cumulative_savings st) 2)
               (py_round average 2)
               (first_break_even (st_yearly_analysis st) net_cost)))
  end.

End Projection.

(** ** What the loop holds in each year

    The values of the loop's locals in year [y], read off the state the
    loop has reached; the recorded entry is made of their roundings. *)

(** [electricity_rate] when year [y] starts. *)
Definition rate_in_year (financial_data : list pyval) (annual_production : Q)
    (y : Z) : Q :=
  st_electricity_rate (loop_upto financial_data annual_production (y - 1)).

(** [savings] in year [y]. *)
Definition savings_in_year (financial_data : list pyval)
    (annual_production : Q) (y : Z) : Q :=
  production annual_production y * rate_in_year financial_data annual_production y.

(** [net_savings] in year [y]. *)
Definition net_savings_in_year (financial_data : list pyval)
    (annual_production : Q) (y : Z) : Q :=
  savings_in_year financial_data annual_production y
  - num (getitem financial_data 6).

(** [cumulative_savings] when year [y] ends. *)
Definition cumulative_after (financial_data : list pyval)
    (annual_production : Q) (y : Z) : Q :=
  st_cumulative_savings (loop_upto financial_data annual_production y).

(** [roi] in year [y]. *)
Definition roi_in_year (financial_data : list pyval) (annual_production : Q)
    (y : Z) : Q :=
  roi (cumulative_after financial_data annual_production y)
      (net_cost financial_data annual_production).

(** The entry appended in year [y]. *)
Definition entry_of_year (financial_data : list pyval) (annual_production : Q)
    (y : Z) : year_entry :=
  mk_year_entry y
    (py_round (production annual_production y) 2)
    (py_round (rate_in_year financial_data annual_production (y + 1)) 3)
    (py_round (net_savings_in_year financial_data annual_production y) 2)
    (py_round (cumulative_after financial_data annual_production y) 2)
    (py_round (roi_in_year financial_data annual_production y) 2).

(** The entry of year [y] in a list of yearly entries. *)
Definition entry_at (yearly_analysis : list year_entry) (y : Z)
  : option year_entry :=
  if (1 <=? y)%Z then nth_error yearly_analysis (Z.to_nat (y - 1)) else None.

(** ** Inputs of the examples *)

(** A stand-in for the C library's [pow]; the examples have whole
    exponents, for which it is not consulted. *)
Definition pow_not_consulted : Q -> Q -> Q := fun _ _ => 1.

(** The call of the script at the end of the source file: property 1,
    [electricity_rate=0.12], [installation_cost_per_watt=2.75],
    [incentives=5000], [financing_rate=4.5], [financing_term=20],
    [maintenance_cost_annual=200], [electricity_price_increase=0.03]. *)
Definition main_conn : connection :=
  add_financial_data [] "2024-01-01 10:00:00" 1
    (12 # 100) (275 # 100) 5000 (45 # 10) 20 200 (3 # 100).

(** The row that call stores. *)
Definition main_row : financial_row :=
  mk_financial_row 1 1 (12 # 100) (275 # 100) 5000 (45 # 10) 20 200 (3 # 100)
    "2024-01-01 10:00:00".

(** An annual potential of 14600 kWh (a 10 kW system). *)
Definition potential_14600 : Z -> Q := fun _ => 14600.

(** As the script, without incentives. *)
Definition conn_no_incentives : connection :=
  add_financial_data [] "2024-01-01 10:00:00" 1
    (12 # 100) (275 # 100) 0 (45 # 10) 20 200 (3 # 100).

(** As the script, with a financing term of zero years. *)
Definition conn_zero_term : connection :=
  add_financial_data [] "2024-01-01 10:00:00" 1
    (12 # 100) (275 # 100) 5000 (45 # 10) 0 200 (3 # 100).

(** A financing rate of zero over ten years, with columns that make the
    computed net cost 12000: 97 kW * 1000 * 0.125 - 125. *)
Definition conn_zero_rate : connection :=
  add_financial_data [] "2024-01-01 10:00:00" 1
    (125 # 1000) 125 5000 0 10 200 (3 # 100).

Definition zero_rate_row : financial_row :=
  mk_financial_row 1 1 (125 # 1000) 125 5000 0 10 200 (3 # 100)
    "2024-01-01 10:00:00".

Definition potential_141620 : Z -> Q := fun _ => 141620.

Definition potential_hundredth : Z -> Q := fun _ => 1 # 100.

(** * The rest of [SolarAudit]

    The methods around the projection. What they obtain from outside the
    program is taken as given: the geocoder, the timezone finder, the web
    service and Python's [str]. *)

(** ** Exceptions of the other methods *)

Inductive py_error : Type :=
| Builtin (e : exn)                 (* an exception of the projection *)
| KeyError (key : string)
| TypeError
| JSONDecodeError
| RequestException                  (* raised by [requests.get] itself *)
| PlainException (msg : string).    (* [raise Exception(msg)] *)

Inductive outcome (A : Type) : Type :=
| Returned (a : A)
| Failed (e : py_error).

Arguments Returned {A} a.
Arguments Failed {A} e.

Definition and_then {A B : Type} (m : outcome A) (k : A -> outcome B)
  : outcome B :=
  match m with
  | Returned a => k a
  | Failed e => Failed e
  end.

Notation "x <~ m ;; k" := (and_then m (fun x => k))
  (at level 61, m at next level, right associativity).

(** The outcome of a call of the projection. *)
Definition of_result {A : Type} (m : result A) : outcome A :=
  match m with
  | Ok a => Returned a
  | Raise e => Failed (Builtin e)
  end.

(** ** Solar irradiance *)

(** [estimate_solar_irradiance(cloud_cover)] *)
Definition estimate_solar_irradiance (cloud_cover : Q) : Q :=
  let max_irradiance := 1000 in
  max_irradiance * (1 - (cloud_cover / 100) * (75 # 100)).

(** ** Weather *)

(** A decoded JSON document. *)
#[warnings="-register-all"]
Inductive json : Type :=
| JNull
| JBool (b : bool)
| JNum (q : Q)
| JStr (s : string)
| JArr (items : list json)
| JObj (members : list (string * json)).

(** [d[key]] on a decoded document: of several members with the same
    name the decoder keeps the last. *)
Definition subscript (d : json) (key : string) : outcome json :=
  match d with
  | JObj members =>
      match find (fun m => String.eqb (fst m) key) (rev members) with
      | Some m => Returned (snd m)
      | None => Failed (KeyError key)
      end
  | _ => Failed TypeError
  end.

(** The number a decoded value stands for in arithmetic. *)
Definition as_number (d : json) : outcome Q :=
  match d with
  | JNum q => Returned q
  | JBool b => Returned (if b then 1 else 0)
  | _ => Failed TypeError
  end.

(** What [requests.get] returns: the status and, when the body is JSON,
    the decoded body. *)
Record response : Type := mk_response {
  status_code : Z;
  body : option json
}.

(** [response.json()] *)
Definition response_json (r : response) : outcome json :=
  match body r with
  | Some d => Returned d
  | None => Failed JSONDecodeError
  end.

(** The dictionary [get_weather_data] returns. *)
Record weather : Type := mk_weather {
  temperature : Q;
  humidity : json;
  cloud_cover : json;
  solar_irradiance : Q
}.

(** A value of a fetched row that may be [None]. *)
Inductive cell : Type :=
| Null
| Val (v : pyval).

(** [not key] for the API key. *)
Definition key_missing (key : option string) : bool :=
  match key with
  | None => true
  | Some k => String.eqb k EmptyString
  end.

(** ** Properties and photos *)

Record property_row : Type := mk_property_row {
  prop_id : Z;
  prop_address : string;
  prop_latitude : Q;
  prop_longitude : Q;
  prop_timezone : option string;
  prop_roof_area : Q;
  prop_roof_angle : Q;
  prop_orientation : string;
  prop_shading_factor : Q;
  prop_created_at : string
}.

Record photo_row : Type := mk_photo_row {
  photo_id : Z;
  photo_property_id : Z;
  photo_type : string;
  photo_data : string;
  photo_gps_latitude : Q;
  photo_gps_longitude : Q;
  photo_timestamp : string;
  photo_notes : option string
}.

(** The object: the three tables read here and the API key. *)
Record solar_audit : Type := mk_solar_audit {
  properties : list property_row;
  photos : list photo_row;
  financial_data_table : connection;
  weather_api_key : option string
}.

Definition text_cell (s : option string) : cell :=
  match s with
  | Some s => Val (PyStr s)
  | None => Null
  end.

(** The tuple [SELECT * FROM properties] yields for a row. *)
Definition select_star_property (r : property_row) : list cell :=
  [ Val (PyInt (prop_id r));
    Val (PyStr (prop_address r));
    Val (PyFloat (prop_latitude r));
    Val (PyFloat (prop_longitude r));
    text_cell (prop_timezone r);
    Val (PyFloat (prop_roof_area r));
    Val (PyFloat (prop_roof_angle r));
    Val (PyStr (prop_orientation r));
    Val (PyFloat (prop_shading_factor r));
    Val (PyStr (prop_created_at r)) ].

(** [t[i]] on such a tuple. *)
Definition cell_at (t : list cell) (i : nat) : cell := nth i t Null.

(** [SELECT * FROM properties WHERE id = ?], [fetchone()] *)
Definition fetch_property (self : solar_audit) (pid : Z) : option (list cell) :=
  option_map select_star_property
    (find (fun r => Z.eqb (prop_id r) pid) (properties self)).

(** The tuple [SELECT id, photo_type, timestamp, notes] yields. *)
Definition select_photo (p : photo_row) : list cell :=
  [ Val (PyInt (photo_id p));
    Val (PyStr (photo_type p));
    Val (PyStr (photo_timestamp p));
    text_cell (photo_notes p) ].

(** [SELECT ... FROM photos WHERE property_id = ?], [fetchall()] *)
Definition fetch_photos (self : solar_audit) (pid : Z) : list (list cell) :=
  map select_photo
    (filter (fun p => Z.eqb (photo_property_id p) pid) (photos self)).

(** The row id given to an inserted property. *)
Definition next_property_id (self : solar_audit) : Z :=
  (fold_right Z.max 0 (map prop_id (properties self)) + 1)%Z.

(** ** The comprehensive report *)

Record coordinates : Type := mk_coordinates {
  coord_latitude : cell;
  coord_longitude : cell
}.

Record roof_specifications : Type := mk_roof_specifications {
  roof_area : cell;
  roof_angle : cell;
  roof_orientation : cell;
  roof_shading_factor : cell
}.

Record property_details : Type := mk_property_details {
  pd_address : cell;
  pd_coordinates : coordinates;
  pd_timezone : cell;
  pd_roof_specifications : roof_specifications
}.

Record photo_entry : Type := mk_photo_entry {
  doc_photo_id : cell;
  doc_type : cell;
  doc_timestamp : cell;
  doc_notes : cell
}.

Record comprehensive_report : Type := mk_comprehensive_report {
  cr_property_details : property_details;
  current_conditions : weather;
  documentation : list photo_entry;
  cr_solar_potential : Q;       (* the dictionary, by its annual potential *)
  financial_analysis : report
}.

Section Audit.

(** [geolocator.geocode(address)]: latitude and longitude, or [None]. *)
Variable geocode : string -> option (Q * Q).

(** [tf.timezone_at(lat=..., lng=...)] *)
Variable timezone_at : Q -> Q -> option string.

(** [requests.get(url)] *)
Variable requests_get : string -> outcome response.

(** Python's [str] of a value, as an f-string inserts it. *)
Variable py_str : cell -> string.

Variable calculate_solar_potential : Z -> Q.
Variable libm_pow : Q -> Q -> Q.

(** [get_location_data(address)] *)
Definition get_location_data (address : string)
  : outcome (Q * Q * option string) :=
  match geocode address with
  | Some (latitude, longitude) =>
      Returned (latitude, longitude, timezone_at latitude longitude)
  | None => Failed (Builtin (ValueError "Address not found"))
  end.

(** [add_property(...)]: the object after the call and the new row id;
    [now] is [datetime.now()]. *)
Definition add_property (self : solar_audit) (now : string)
    (address : string) (roof_area roof_angle : Q) (orientation : string)
    (shading_factor : Q) : outcome (solar_audit * Z) :=
  location_data <~ get_location_data address ;;
  let '(latitude, longitude, timezone) := location_data in
  let lastrowid := next_property_id self in
  Returned
    (mk_solar_audit
       (properties self ++
          [ mk_property_row lastrowid address latitude longitude timezone
              roof_area roof_angle orientation shading_factor now ])
       (photos self) (financial_data_table self) (weather_api_key self),
     lastrowid).

(** The URL of the request. *)
Definition weather_url (latitude longitude : cell) (key : string) : string :=
  ("http://api.openweathermap.org/data/2.5/weather?lat="
   ++ py_str latitude ++ "&lon=" ++ py_str longitude
   ++ "&appid=" ++ key)%string.

(** [get_weather_data(latitude, longitude)] *)
Definition get_weather_data (self : solar_audit) (latitude longitude : cell)
  : outcome weather :=
  if key_missing (weather_api_key self)
  then Failed (Builtin (ValueError "Weather API key not provided"))
  else
    let key := match weather_api_key self with
               | Some k => k
               | None => EmptyString
               end in
    response <~ requests_get (weather_url latitude longitude key) ;;
    if Z.eqb (status_code response) 200
    then
      data <~ response_json response ;;
      main <~ subscript data "main" ;;
      temp <~ subscript main "temp" ;;
      temp <~ as_number temp ;;
      main <~ subscript data "main" ;;
      humidity <~ subscript main "humidity" ;;
      clouds <~ subscript data "clouds" ;;
      cloud_cover <~ subscript clouds "all" ;;
      clouds <~ subscript data "clouds" ;;
      all <~ subscript clouds "all" ;;
      all <~ as_number all ;;
      Returned (mk_weather (temp - (27315 # 100)) humidity cloud_cover
                  (estimate_solar_irradiance all))
    else Failed (PlainException "Failed to fetch weather data").

(** [generate_comprehensive_report(property_id)] *)
Definition generate_comprehensive_report (self : solar_audit) (pid : Z)
  : outcome comprehensive_report :=
  match fetch_property self pid with
  | None => Failed (Builtin (ValueError "Property not found"))
  | Some property_data =>
      weather <~ get_weather_data self (cell_at property_data 2)
                   (cell_at property_data 3) ;;
      let photos := fetch_photos self pid in
      let solar_potential := calculate_solar_potential pid in
      financial_analysis <~
        of_result (calculate_detailed_financials calculate_solar_potential
                     libm_pow (financial_data_table self) pid 25) ;;
      Returned
        (mk_comprehensive_report
           (mk_property_details
              (cell_at property_data 1)
              (mk_coordinates (cell_at property_data 2)
                 (cell_at property_data 3))
              (cell_at property_data 4)
              (mk_roof_specifications
                 (cell_at property_data 5) (cell_at property_data 6)
                 (cell_at property_data 7) (cell_at property_data 8)))
           weather
           (map (fun photo =>
                   mk_photo_entry (cell_at photo 0) (cell_at photo 1)
                     (cell_at photo 2) (cell_at photo 3))
                photos)
           solar_potential
           financial_analysis)
  end.

End Audit.

(** ** Inputs of the examples for the other methods *)

Definition sun_street : string := "123 Sun Street, Solar City, SC 12345".

(** A geocoder that knows one address. *)
Definition demo_geocode (address : string) : option (Q * Q) :=
  if String.eqb address sun_street
  then Some (3398 # 100, - (8104 # 100))
  else None.

Definition demo_timezone_at : Q -> Q -> option string :=
  fun _ _ => Some "America/New_York"%string.

(** An answer of the weather service: 293.15 K, 40 % humidity, 20 % cloud
    cover. *)
Definition demo_body : json :=
  JObj [ ("main"%string,
          JObj [ ("temp"%string, JNum (29315 # 100));
                 ("humidity"%string, JNum 40) ]);
         ("clouds"%string, JObj [ ("all"%string, JNum 20) ]) ].

Definition demo_requests_get : string -> outcome response :=
  fun _ => Returned (mk_response 200 (Some demo_body)).

(** A service that refuses the key. *)
Definition refused_answer : response := mk_response 401 None.

Definition refusing_requests_get : string -> outcome response :=
  fun _ => Returned refused_answer.

(** A stand-in for Python's [str]. *)
Definition demo_py_str : cell -> string := fun _ => "0"%string.

Definition demo_property : property_row :=
  mk_property_row 1 sun_street (3398 # 100) (- (8104 # 100))
    (Some "America/New_York"%string) 100 30 "S" (1 # 10)
    "2024-01-01 09:00:00".

Definition demo_photo : photo_row :=
  mk_photo_row 1 1 "roof" "" (3398 # 100) (- (8104 # 100))
    "2024-01-01 09:30:00" None.

(** The object of the script: one property, one photo, the financial
    data of the script and its API key. *)
Definition demo_audit : solar_audit :=
  mk_solar_audit [demo_property] [demo_photo] main_conn
    (Some "your_api_key_here"%string).

(** The same with an empty API key. *)
Definition keyless_audit : solar_audit :=
  mk_solar_audit [demo_property] [demo_photo] main_conn (Some EmptyString).

(** The same without financial data. *)
Definition audit_without_financial_data : solar_audit :=
  mk_solar_audit [demo_property] [demo_photo] []
    (Some "your_api_key_here"%string).

(** * The projection in double precision

    [calculate_detailed_financials] once more, this time with a Python
    [float] as what it is at run time, an IEEE 754 binary64 number: every
    [+], [-], [*] and [/] of the source is the correctly rounded operation
    on doubles, a comparison is the IEEE comparison, and [round] is
    CPython's. The values recorded in the report are then the very
    doubles the code records, up to the two calls left as parameters
    ([calculate_solar_potential], which the class does not define, and
    [**], which CPython hands to the C library).

    The columns of a fetched row are numbers: [None] in a numeric column
    (on which Python raises [TypeError]) is not represented. *)

From Stdlib Require Import PrimFloat FloatOps SpecFloat.

(* Decimal literals denote the nearest double, as in Python. *)
#[local] Set Warnings "-inexact-float".

Module Double.

Local Open Scope float_scope.

(** ** Exceptions and results *)

Inductive exn : Type :=
| ValueError (msg : string)
| ZeroDivisionError
| OverflowError.

Inductive result (A : Type) : Type :=
| Ok (a : A)
| Raise (e : exn).

Arguments Ok {A} a.
Arguments Raise {A} e.

Definition bind {A B : Type} (m : result A) (k : A -> result B) : result B :=
  match m with
  | Ok a => k a
  | Raise e => Raise e
  end.

Declare Scope double_scope.
Notation "x <- m ;; k" := (bind m (fun x => k))
  (at level 61, m at next level, right associativity) : double_scope.
Local Open Scope double_scope.

(** ** Python arithmetic on doubles *)

(** The conversion of an int in arithmetic with a float: the nearest
    double. (An int beyond the range of the doubles, which makes Python
    raise [OverflowError], needs more than a thousand bits: the integer
    columns of sqlite have 64, and no loop reaches such a year.) *)
Definition float_of_int (z : Z) : float :=
  SF2Prim (binary_normalize prec emax z 0 false).

(** [x / y]: raises on a zero divisor, of either sign. *)
Definition py_div (x y : float) : result float :=
  if y =? 0 then Raise ZeroDivisionError else Ok (x / y).

(** The rational number that the finite double of mantissa [m] and
    exponent [e] stands for. *)
Definition exact_value (m : positive) (e : Z) : Q :=
  if (0 <=? e)%Z then inject_Z (Zpos m * 2 ^ e)
  else Zpos m # Z.to_pos (2 ^ (- e)).

(** [round(x, ndigits)] for [ndigits >= 0], as [float.__round__] computes
    it: the exact value of [x] is rounded to [ndigits] decimals, ties to
    the even neighbour, and that decimal is converted to the nearest
    double. With [n] the decimal's digits as an integer, the nearest double
    is [n / 10^ndigits] when [n < 2^53] (both operands are doubles and the
    division rounds correctly); from there on the doubles are more than
    two units of the last decimal apart and the nearest one is [x] itself.
    Zeros, infinities and nan are returned as they are. *)
Definition py_round (x : float) (ndigits : nat) : float :=
  match Prim2SF x with
  | S754_finite s m e =>
      let scale := (10 ^ Z.of_nat ndigits)%Z in
      let n := round_half_even (exact_value m e * inject_Z scale)%Q in
      if (n <? 2 ^ 53)%Z
      then let r := float_of_int n / float_of_int scale in
           if s then - r else r
      else x
  | _ => x
  end.

(** ** Values of a fetched row *)

Inductive pyval : Type :=
| PyInt (z : Z)
| PyFloat (x : float)
| PyStr (s : string).

(** The double a value enters arithmetic as. Only the numeric columns of
    a row are ever used in arithmetic. *)
Definition num (v : pyval) : float :=
  match v with
  | PyInt z => float_of_int z
  | PyFloat x => x
  | PyStr _ => 0
  end.

(** [t[i]] on a tuple. *)
Definition getitem (t : list pyval) (i : nat) : pyval :=
  nth i t (PyStr EmptyString).

(** ** The table [financial_data] *)

Record financial_row : Type := mk_financial_row {
  id : Z;
  property_id : Z;
  electricity_rate : float;
  installation_cost_per_watt : float;
  incentives : float;
  financing_rate : float;
  financing_term : Z;
  maintenance_cost_annual : float;
  electricity_price_increase : float;
  timestamp : string
}.

Definition connection : Type := list financial_row.

(** The tuple [SELECT *] yields for a row: every column, in the order of
    [CREATE TABLE financial_data]. *)
Definition select_star (r : financial_row) : list pyval :=
  [ PyInt (id r);
    PyInt (property_id r);
    PyFloat (electricity_rate r);
    PyFloat (installation_cost_per_watt r);
    PyFloat (incentives r);
    PyFloat (financing_rate r);
    PyInt (financing_term r);
    PyFloat (maintenance_cost_annual r);
    PyFloat (electricity_price_increase r);
    PyStr (timestamp r) ].

Definition next_rowid (conn : connection) : Z :=
  (fold_right Z.max 0 (map id conn) + 1)%Z.

(** [add_financial_data]: appends a row; [now] is [datetime.now()]. *)
Definition add_financial_data (conn : connection) (now : string)
    (property_id : Z) (electricity_rate installation_cost_per_watt : float)
    (incentives financing_rate : float) (financing_term : Z)
    (maintenance_cost_annual electricity_price_increase : float) : connection :=
  conn ++ [ mk_financial_row (next_rowid conn) property_id electricity_rate
              installation_cost_per_watt incentives financing_rate
              financing_term maintenance_cost_annual
              electricity_price_increase now ].

(** [ORDER BY timestamp DESC LIMIT 1] over the rows kept by the [WHERE]
    clause. *)
Fixpoint latest (rows : list financial_row) : option financial_row :=
  match rows with
  | [] => None
  | r :: rest =>
      match latest rest with
      | None => Some r
      | Some r' =>
          match String.compare (timestamp r') (timestamp r) with
          | Gt => Some r'
          | _ => Some r
          end
      end
  end.

(** [cursor.execute('SELECT * ... WHERE property_id = ? ...'); fetchone()] *)
Definition fetchone (conn : connection) (pid : Z) : option (list pyval) :=
  option_map select_star
    (latest (filter (fun r => Z.eqb (property_id r) pid) conn)).

(** ** The result of the projection *)

(** One entry of ["yearly_analysis"]. *)
Record year_entry : Type := mk_year_entry {
  year : Z;
  production_kwh : float;
  entry_electricity_rate : float;   (* key ["electricity_rate"] *)
  yearly_savings : float;
  cumulative_savings : float;
  roi_percentage : float
}.

(** ["system_details"]. *)
Record system_details : Type := mk_system_details {
  size_kw : float;
  sd_base_cost : float;             (* key ["base_cost"] *)
  sd_incentives : float;            (* key ["incentives"] *)
  sd_net_cost : float               (* key ["net_cost"] *)
}.

(** ["financing"], when it is not [None]. *)
Record financing_details : Type := mk_financing_details {
  monthly_payment : float;
  total_payments : float;
  total_interest : float
}.

(** ["summary"]. *)
Record summary : Type := mk_summary {
  total_25_year_savings : float;
  average_annual_savings : float;
  break_even_year : option Z
}.

Record report : Type := mk_report {
  rep_system_details : system_details;
  financing : option financing_details;
  yearly_analysis : list year_entry;
  rep_summary : summary
}.

(** The variables the loop of the projection carries from year to year. *)
Record loop_state : Type := mk_loop_state {
  st_cumulative_savings : float;
  st_electricity_rate : float;
  st_yearly_analysis : list year_entry
}.

(** [next((y["year"] for y in yearly_analysis
          if y["cumulative_savings"] >= net_cost), None)] *)
Definition first_break_even (yearly_analysis : list year_entry)
    (net_cost : float) : option Z :=
  option_map year
    (find (fun y => net_cost <=? cumulative_savings y) yearly_analysis).

(** The entry of year [y] in a list of yearly entries. *)
Definition entry_at (yearly_analysis : list year_entry) (y : Z)
  : option year_entry :=
  if (1 <=? y)%Z then nth_error yearly_analysis (Z.to_nat (y - 1)) else None.

Section Projection.

(** [calculate_solar_potential] is called by the projection but is not
    defined in the class: its result ["annual_potential_kwh"] for a
    property is taken as given. *)
Variable calculate_solar_potential : Z -> float.

(** [b ** e] on floats, which CPython computes with the C library's
    [pow] and which raises [OverflowError] when the result is out of
    range: taken as given. *)
Variable float_pow : float -> float -> result float.

(** *** The locals of [calculate_detailed_financials] *)

Definition system_size_kw (annual_production : float) : float :=
  annual_production / float_of_int (365 * 4).

Definition base_cost (financial_data : list pyval) (annual_production : float)
  : float :=
  system_size_kw annual_production * 1000 * num (getitem financial_data 2).

Definition net_cost (financial_data : list pyval) (annual_production : float)
  : float :=
  base_cost financial_data annual_production - num (getitem financial_data 3).

(** [production = annual_production * (1 - 0.005 * year)] *)
Definition production (annual_production : float) (year : Z) : float :=
  annual_production * (1 - 0.005 * float_of_int year).

(** [roi = (cumulative_savings / net_cost) * 100 if net_cost > 0 else 0] *)
Definition roi (cumulative_savings net_cost : float) : float :=
  if 0 <? net_cost then (cumulative_savings / net_cost) * 100 else 0.

(** The body of [for year in range(1, years + 1)]. *)
Definition loop_body (financial_data : list pyval)
    (annual_production net_cost : float) (st : loop_state) (year : Z)
  : loop_state :=
  let production := production annual_production year in
  let savings := production * st_electricity_rate st in
  let net_savings := savings - num (getitem financial_data 6) in
  let cumulative_savings := st_cumulative_savings st + net_savings in
  let roi := roi cumulative_savings net_cost in
  let electricity_rate :=
    st_electricity_rate st * (1 + num (getitem financial_data 7)) in
  mk_loop_state cumulative_savings electricity_rate
    (st_yearly_analysis st ++
       [ mk_year_entry year
           (py_round production 2)
           (py_round electricity_rate 3)
           (py_round net_savings 2)
           (py_round cumulative_savings 2)
           (py_round roi 2) ]).

(** The state before the loop. *)
Definition loop_init (financial_data : list pyval) : loop_state :=
  mk_loop_state 0 (num (getitem financial_data 1)) [].

(** The state after the years [1 .. n]. *)
Definition loop_upto (financial_data : list pyval) (annual_production : float)
    (n : Z) : loop_state :=
  fold_left
    (loop_body financial_data annual_production
       (net_cost financial_data annual_production))
    (range 1 (n + 1)) (loop_init financial_data).

(** The financing block. *)
Definition financing_of (financial_data : list pyval) (net_cost : float)
  : result (option financing_details) :=
  if (0 <? num (getitem financial_data 4)) && (0 <? num (getitem financial_data 5))
  then
    let monthly_rate := num (getitem financial_data 4) / 12 / 100 in
    let num_payments := num (getitem financial_data 5) * 12 in
    growth <- float_pow (1 + monthly_rate) num_payments ;;
    growth' <- float_pow (1 + monthly_rate) num_payments ;;
    monthly_payment <-
      py_div (net_cost * monthly_rate * growth) (growth' - 1) ;;
    Ok (Some (mk_financing_details
                (py_round monthly_payment 2)
                (py_round (monthly_payment * num_payments) 2)
                (py_round (monthly_payment * num_payments - net_cost) 2)))
  else Ok None.

(** [calculate_detailed_financials(property_id, years)] *)
Definition calculate_detailed_financials (conn : connection)
    (property_id years : Z) : result report :=
  match fetchone conn property_id with
  | None => Raise (ValueError "Financial data not found for property")
  | Some financial_data =>
      let annual_production := calculate_solar_potential property_id in
      let system_size_kw := system_size_kw annual_production in
      let base_cost := base_cost financial_data annual_production in
      let net_cost := net_cost financial_data annual_production in
      let st := loop_upto financial_data annual_production years in
      financing_details <- financing_of financial_data net_cost ;;
      average <- py_div (st_cumulative_savings st) (float_of_int years) ;;
      Ok (mk_report
            (mk_system_details
               (py_round system_size_kw 2)
               (py_round base_cost 2)
               (py_round (num (getitem financial_data 3)) 2)
               (py_round net_cost 2))
            financing_details
            (st_yearly_analysis st)
            (mk_summary
               (py_round (st_cumulative_savings st) 2)
               (py_round average 2)
               (first_break_even (st_yearly_analysis st) net_cost)))
  end.

End Projection.

(** ** The yearly recurrence of the specification

    Step 3 of the specification's projection engine, written as it is
    worded there, in double arithmetic and in the order of its operations,
    over a starting rate, a yearly cost, a yearly escalation and a net
    cost. The theorems compare the table the code records with it. *)

Section Recurrence.

Variables annual_production_kwh starting_rate yearly_cost escalation : float.
Variable net_cost_of_system : float.

(** [production_y = annual_production_kwh * (1 - 0.005 * y)] *)
Definition spec_production (y : nat) : float :=
  annual_production_kwh * (1 - 0.005 * float_of_int (Z.of_nat y)).

(** The current rate after [y] escalations. *)
Fixpoint spec_rate (y : nat) : float :=
  match y with
  | O => starting_rate
  | S k => spec_rate k * (1 + escalation)
  end.

(** [net_savings_y = production_y * current_rate - yearly cost] *)
Definition spec_net_savings (y : nat) : float :=
  spec_production y * spec_rate (pred y) - yearly_cost.

(** The running sum of the net savings of the years [1 .. y]. *)
Fixpoint spec_cumulative_savings (y : nat) : float :=
  match y with
  | O => 0
  | S k => spec_cumulative_savings k + spec_net_savings (S k)
  end.

(** [roi_pct = cumulative_savings / net_cost * 100 if net_cost > 0 else 0] *)
Definition spec_roi (y : nat) : float :=
  if 0 <? net_cost_of_system
  then spec_cumulative_savings y / net_cost_of_system * 100
  else 0.

(** The five fields of year [y], rounded to 2 decimals, the rate to 3;
    the rate recorded is the one escalated for the next year. *)
Definition spec_entry (y : nat) : year_entry :=
  mk_year_entry (Z.of_nat y)
    (py_round (spec_production y) 2)
    (py_round (spec_rate y) 3)
    (py_round (spec_net_savings y) 2)
    (py_round (spec_cumulative_savings y) 2)
    (py_round (spec_roi y) 2).

End Recurrence.

End Double.

(** ** Inputs of the examples in double precision *)

Module DoubleExamples.

Local Open Scope float_scope.

(** A stand-in for [**]: the examples store no incentives, so that the
    financing block, the only place where [**] occurs, is skipped. *)
Definition pow_not_called : float -> float -> Double.result float :=
  fun _ _ => Double.Raise Double.OverflowError.

(** The row of the script at the end of the source file, without
    incentives. *)
Definition conn_script : Double.connection :=
  Double.add_financial_data [] "2024-01-01 10:00:00" 1
    0.12 2.75 0 4.5 20 200 0.03.

Definition row_script : Double.financial_row :=
  Double.mk_financial_row 1 1 0.12 2.75 0 4.5 20 200 0.03
    "2024-01-01 10:00:00".

(** A row whose projection breaks even in its fourth year: the net cost
    is 10 kW * 1000 * 5 - 2.75 = 49997.25. *)
Definition conn_year_4 : Double.connection :=
  Double.add_financial_data [] "2024-01-01 10:00:00" 1
    5 2.75 0 0 20 0.03 0.

Definition row_year_4 : Double.financial_row :=
  Double.mk_financial_row 1 1 5 2.75 0 0 20 0.03 0
    "2024-01-01 10:00:00".

(** A row and a potential for which the loop's net savings are 1000 in
    every year and the net cost is 10000: without production the savings
    are 0, the loop subtracts column 6 ([financing_term], -1000) and the
    net cost is 0 minus column 3 ([installation_cost_per_watt], -10000). *)
Definition conn_flat_1000 : Double.connection :=
  Double.add_financial_data [] "2024-01-01 10:00:00" 1
    0.12 (-10000) 0 0 (-1000) 0 0.

Definition row_flat_1000 : Double.financial_row :=
  Double.mk_financial_row 1 1 0.12 (-10000) 0 0 (-1000) 0 0
    "2024-01-01 10:00:00".

(** Year 1 ends just below a net cost of 995.0: the savings are
    999.997 * 0.995 = 994.997015. *)
Definition conn_just_below : Double.connection :=
  Double.add_financial_data [] "2024-01-01 10:00:00" 1
    1.46 4.997 0 0 0 0 0.

Definition row_just_below : Double.financial_row :=
  Double.mk_financial_row 1 1 1.46 4.997 0 0 0 0 0
    "2024-01-01 10:00:00".

(** Year 1 ends at 995.0, below a net cost of 995.004. *)
Definition conn_off_cent : Double.connection :=
  Double.add_financial_data [] "2024-01-01 10:00:00" 1
    1.46 4.996 0 0 0 0 0.

Definition row_off_cent : Double.financial_row :=
  Double.mk_financial_row 1 1 1.46 4.996 0 0 0 0 0
    "2024-01-01 10:00:00".




Definition potential_14600 : Z -> float := fun _ => 14600.
Definition potential_1000 : Z -> float := fun _ => 1000.
Definition potential_999_997 : Z -> float := fun _ => 999.997.
Definition potential_0 : Z -> float := fun _ => 0.
Definition potential_tenth : Z -> float := fun _ => 0.1.
Definition potential_hundredth : Z -> float := fun _ => 0.01.

End DoubleExamples.

(** * Properties *)

(** ** Rounding *)

#[global] Instance round_half_even_comp : Proper (Qeq ==> eq) round_half_even.
Proof.
  intros x y Hxy. unfold round_half_even.
  rewrite (Qfloor_comp x y Hxy).
  assert (H : x - inject_Z (Qfloor y) == y - inject_Z (Qfloor y))
    by (rewrite Hxy; reflexivity).
  rewrite (Qcompare_comp _ _ H (1 # 2) (1 # 2) (Qeq_refl _)).
  reflexivity.
Qed.

#[global] Instance py_round_comp : Proper (Qeq ==> eq ==> Qeq) py_round.
Proof.
  intros x y Hxy n m <-. unfold py_round.
  assert (H : x * inject_Z (10 ^ Z.of_nat n) == y * inject_Z (10 ^ Z.of_nat n))
    by (rewrite Hxy; reflexivity).
  rewrite (round_half_even_comp _ _ H). reflexivity.
Qed.

(** The rounded value is the floor or its successor. *)
Lemma round_half_even_cases (q : Q) :
  (round_half_even q = Qfloor q /\ q - inject_Z (Qfloor q) <= 1 # 2) \/
  (round_half_even q = (Qfloor q + 1)%Z /\ 1 # 2 <= q - inject_Z (Qfloor q)).
Proof.
  unfold round_half_even.
  destruct (Qcompare_spec (q - inject_Z (Qfloor q)) (1 # 2)) as [E | L | G].
  - destruct (Z.even (Qfloor q)); [left | right]; split; auto; rewrite E; lra.
  - left; split; auto; lra.
  - right; split; auto; lra.
Qed.

Lemma Qfloor_bounds (q : Q) :
  inject_Z (Qfloor q) <= q /\ q < inject_Z (Qfloor q) + 1.
Proof.
  split; [apply Qfloor_le |].
  generalize (Qlt_floor q). rewrite inject_Z_plus. auto.
Qed.

(** Rounding moves a number by at most one half. *)
Lemma round_half_even_near (q : Q) :
  q - (1 # 2) <= inject_Z (round_half_even q) /\
  inject_Z (round_half_even q) <= q + (1 # 2).
Proof.
  destruct (Qfloor_bounds q) as [Hl Hu].
  destruct (round_half_even_cases q) as [[-> H] | [-> H]].
  - split; lra.
  - rewrite inject_Z_plus. change (inject_Z 1) with 1. split; lra.
Qed.

(** An integer strictly within one half of [q] is what [q] rounds to. *)
Lemma round_half_even_unique (q : Q) (n : Z) :
  inject_Z n - (1 # 2) < q -> q < inject_Z n + (1 # 2) ->
  round_half_even q = n.
Proof.
  intros Hl Hu.
  destruct (round_half_even_near q) as [Nl Nu].
  assert (A : inject_Z (round_half_even q) < inject_Z (n + 1))
    by (rewrite inject_Z_plus; change (inject_Z 1) with 1; lra).
  assert (B : inject_Z n < inject_Z (round_half_even q + 1))
    by (rewrite inject_Z_plus; change (inject_Z 1) with 1; lra).
  rewrite <- Zlt_Qlt in A, B. lia.
Qed.

Lemma round_half_even_Z (n : Z) : round_half_even (inject_Z n) = n.
Proof. apply round_half_even_unique; lra. Qed.





(** ** The loop *)

Lemma range_nonpos (lo hi : Z) : (hi <= lo)%Z -> range lo hi = [].
Proof.
  intros H. unfold range. replace (Z.to_nat (hi - lo)) with O by lia. reflexivity.
Qed.

Lemma range_snoc (lo hi : Z) :
  (lo <= hi)%Z -> range lo (hi + 1) = range lo hi ++ [hi].
Proof.
  intros H. unfold range.
  replace (Z.to_nat (hi + 1 - lo)) with (S (Z.to_nat (hi - lo))) by lia.
  rewrite seq_S, map_app. simpl. do 3 f_equal. lia.
Qed.

Lemma range_length (lo hi : Z) : List.length (range lo hi) = Z.to_nat (hi - lo).
Proof. unfold range. now rewrite length_map, length_seq. Qed.


Section Loop.

Variable financial_data : list pyval.
Variable annual_production : Q.

Let upto := loop_upto financial_data annual_production.

Lemma loop_upto_nonpos (n : Z) :
  (n <= 0)%Z -> upto n = loop_init financial_data.
Proof.
  intros H. unfold upto, loop_upto. rewrite range_nonpos by lia. reflexivity.
Qed.

(** One more year is one more run of the body. *)
Lemma loop_upto_step (y : Z) :
  (1 <= y)%Z ->
  upto y =
  loop_body financial_data annual_production
    (net_cost financial_data annual_production) (upto (y - 1)) y.
Proof.
  intros H. unfold upto, loop_upto.
  replace (y - 1 + 1)%Z with y by lia.
  rewrite range_snoc by lia. rewrite fold_left_app. reflexivity.
Qed.


Lemma cumulative_after_0 :
  cumulative_after financial_data annual_production 0 = 0.
Proof.
  unfold cumulative_after. fold upto. now rewrite loop_upto_nonpos by lia.
Qed.

Lemma rate_in_year_1 :
  rate_in_year financial_data annual_production 1
  = num (getitem financial_data 1).
Proof.
  unfold rate_in_year. fold upto. now rewrite loop_upto_nonpos by lia.
Qed.

Lemma rate_in_year_step (y : Z) :
  (1 <= y)%Z ->
  rate_in_year financial_data annual_production (y + 1) =
  rate_in_year financial_data annual_production y
  * (1 + num (getitem financial_data 7)).
Proof.
  intros H. unfold rate_in_year. fold upto.
  replace (y + 1 - 1)%Z with y by lia.
  rewrite (loop_upto_step y H). reflexivity.
Qed.

Lemma yearly_analysis_step (y : Z) :
  (1 <= y)%Z ->
  st_yearly_analysis (upto y) =
  st_yearly_analysis (upto (y - 1))
  ++ [entry_of_year financial_data annual_production y].
Proof.
  intros H. rewrite (loop_upto_step y H).
  unfold loop_body, entry_of_year. cbn [st_yearly_analysis]. do 3 f_equal.
  - unfold rate_in_year. fold upto.
    replace (y + 1 - 1)%Z with y by lia.
    rewrite (loop_upto_step y H). reflexivity.
  - unfold cumulative_after. fold upto.
    rewrite (loop_upto_step y H). reflexivity.
  - unfold roi_in_year, cumulative_after. fold upto.
    rewrite (loop_upto_step y H). reflexivity.
Qed.

(** The table after [n] years: the entries of the years [1 .. n]. *)
Lemma yearly_analysis_upto (n : Z) :
  st_yearly_analysis (upto n) =
  map (entry_of_year financial_data annual_production) (range 1 (n + 1)).
Proof.
  destruct (Z.le_gt_cases n 0) as [Hn | Hn].
  - rewrite loop_upto_nonpos, range_nonpos by lia. reflexivity.
  - replace n with (Z.of_nat (Z.to_nat n)) by lia.
    induction (Z.to_nat n) as [| k IH].
    + rewrite loop_upto_nonpos, range_nonpos by lia. reflexivity.
    + replace (Z.of_nat (S k)) with (Z.of_nat k + 1)%Z by lia.
      rewrite yearly_analysis_step by lia.
      replace (Z.of_nat k + 1 - 1)%Z with (Z.of_nat k) by lia.
      rewrite IH, (range_snoc 1 (Z.of_nat k + 1)) by lia.
      now rewrite map_app.
Qed.

End Loop.

(** ** The fetched row *)

Lemma latest_None (rows : list financial_row) :
  latest rows = None <-> rows = [].
Proof.
  split; [| intros ->; reflexivity].
  destruct rows as [| r rest]; [reflexivity |]. simpl.
  destruct (latest rest) as [r' |]; [| discriminate].
  destruct (String.compare (timestamp r') (timestamp r)); discriminate.
Qed.

Lemma latest_In (rows : list financial_row) (r : financial_row) :
  latest rows = Some r -> In r rows.
Proof.
  revert r. induction rows as [| r0 rest IH]; intros r; simpl; [discriminate |].
  destruct (latest rest) as [r' |].
  - destruct (String.compare (timestamp r') (timestamp r0));
      intros [= <-]; auto.
  - intros [= <-]; auto.
Qed.

(** No row of the property: nothing is fetched. *)
Lemma fetchone_None (conn : connection) (pid : Z) :
  fetchone conn pid = None <->
  forall r, In r conn -> property_id r <> pid.
Proof.
  unfold fetchone. split.
  - intros H r Hin Hp.
    destruct (latest _) eqn:E; [discriminate |].
    apply latest_None in E.
    assert (Hf : In r (filter (fun r => (property_id r =? pid)%Z) conn))
      by (apply filter_In; split; auto; now apply Z.eqb_eq).
    rewrite E in Hf. destruct Hf.
  - intros H.
    destruct (latest _) eqn:E; [| reflexivity].
    apply latest_In, filter_In in E. destruct E as [Hin Hp].
    apply Z.eqb_eq in Hp. now apply H in Hin.
Qed.

(** A fetched tuple is the [SELECT *] of a stored row of the property. *)
Lemma fetchone_Some (conn : connection) (pid : Z) (t : list pyval) :
  fetchone conn pid = Some t ->
  exists r, In r conn /\ property_id r = pid /\ t = select_star r.
Proof.
  unfold fetchone. destruct (latest _) eqn:E; [| discriminate].
  intros [= <-]. apply latest_In, filter_In in E. destruct E as [Hin Hp].
  apply Z.eqb_eq in Hp. eauto.
Qed.

(** What each index of the fetched tuple holds. *)
Lemma select_star_items (r : financial_row) :
  num (getitem (select_star r) 1) = inject_Z (property_id r) /\
  num (getitem (select_star r) 2) = electricity_rate r /\
  num (getitem (select_star r) 3) = installation_cost_per_watt r /\
  num (getitem (select_star r) 4) = incentives r /\
  num (getitem (select_star r) 5) = financing_rate r /\
  num (getitem (select_star r) 6) = inject_Z (financing_term r) /\
  num (getitem (select_star r) 7) = maintenance_cost_annual r.
Proof. repeat split. Qed.

(** A row just added is the one fetched when the property had none. *)
Lemma fetchone_add_first (now : string) (pid : Z) (er ic inc fr : Q) (ft : Z)
    (mc ep : Q) :
  fetchone (add_financial_data [] now pid er ic inc fr ft mc ep) pid =
  Some (select_star (mk_financial_row 1 pid er ic inc fr ft mc ep now)).
Proof.
  unfold fetchone, add_financial_data. simpl. rewrite Z.eqb_refl. reflexivity.
Qed.

(** ** Comparisons *)

Lemma gt0_true (x : Q) : gt0 x = true <-> 0 < x.
Proof.
  unfold gt0. rewrite negb_true_iff.
  destruct (Qle_bool x 0) eqn:E.
  - apply Qle_bool_iff in E. split; [discriminate | lra].
  - split; auto. intros _. destruct (Qlt_le_dec 0 x) as [H | H]; auto.
    apply Qle_bool_iff in H. congruence.
Qed.

Lemma gt0_false (x : Q) : gt0 x = false <-> x <= 0.
Proof.
  unfold gt0. rewrite negb_false_iff. apply Qle_bool_iff.
Qed.

Lemma Qle_bool_false (x y : Q) : Qle_bool x y = false <-> y < x.
Proof.
  destruct (Qle_bool x y) eqn:E.
  - apply Qle_bool_iff in E. split; [discriminate | lra].
  - split; auto. intros _. destruct (Qlt_le_dec y x) as [H | H]; auto.
    apply Qle_bool_iff in H. congruence.
Qed.

(** ** The first entry that satisfies a test *)

Lemma find_first {A : Type} (p : A -> bool) (l : list A) (a : A) :
  find p l = Some a <->
  exists k, nth_error l k = Some a /\ p a = true /\
            forall j b, (j < k)%nat -> nth_error l j = Some b -> p b = false.
Proof.
  revert a. induction l as [| x l IH]; intros a; simpl.
  - split; [discriminate |]. intros [k [H _]]. destruct k; discriminate.
  - destruct (p x) eqn:Px.
    + split.
      * intros [= <-]. exists O. repeat split; auto. intros j b Hj. lia.
      * intros [k [Hk [Pa Hfirst]]]. destruct k as [| k].
        -- simpl in Hk. congruence.
        -- specialize (Hfirst O x (Nat.lt_0_succ k) eq_refl). congruence.
    + rewrite IH. split.
      * intros [k [Hk [Pa Hfirst]]]. exists (S k). repeat split; auto.
        intros [| j] b Hj Hb; simpl in Hb; [congruence |].
        apply (Hfirst j b); auto. lia.
      * intros [k [Hk [Pa Hfirst]]]. destruct k as [| k].
        -- simpl in Hk. congruence.
        -- exists k. repeat split; auto. intros j b Hj Hb.
           apply (Hfirst (S j) b); auto. lia.
Qed.

Lemma find_none_iff {A : Type} (p : A -> bool) (l : list A) :
  find p l = None <-> forall a, In a l -> p a = false.
Proof.
  split; [apply find_none |].
  induction l as [| x l IH]; simpl; intros H; [reflexivity |].
  rewrite (H x) by auto. apply IH. auto.
Qed.

(** ** Break-even over the table of the projection *)



(** ** The financing block *)

Section Run.

Variable calculate_solar_potential : Z -> Q.
Variable libm_pow : Q -> Q -> Q.

Lemma py_div_Ok (x y q : Q) :
  py_div x y = Ok q <-> ~ y == 0 /\ q = x / y.
Proof.
  unfold py_div. destruct (Qeq_bool y 0) eqn:E.
  - apply Qeq_bool_iff in E. split; [discriminate | tauto].
  - apply Qeq_bool_neq in E. split.
    + intros [= <-]. auto.
    + intros [_ ->]. reflexivity.
Qed.

(** The block is skipped when either tested column is not positive. *)
Lemma financing_of_skipped (financial_data : list pyval) (nc : Q) :
  num (getitem financial_data 4) <= 0 \/ num (getitem financial_data 5) <= 0 ->
  financing_of libm_pow financial_data nc = Ok None.
Proof.
  intros H. unfold financing_of.
  destruct H as [H | H]; apply gt0_false in H; rewrite H;
    [| rewrite andb_false_r]; reflexivity.
Qed.

(** When the block returns, it yields a schedule exactly when both tested
    columns are positive. *)
Lemma financing_of_present (financial_data : list pyval) (nc : Q)
    (f : option financing_details) :
  financing_of libm_pow financial_data nc = Ok f ->
  (f <> None <->
   0 < num (getitem financial_data 4) /\ 0 < num (getitem financial_data 5)).
Proof.
  unfold financing_of.
  destruct (gt0 (num (getitem financial_data 4))) eqn:E4;
  destruct (gt0 (num (getitem financial_data 5))) eqn:E5; cbn [andb].
  - apply gt0_true in E4, E5.
    destruct (py_div _ _) as [q | e]; cbn [bind]; [| discriminate].
    intros [= <-]. split; [auto | discriminate].
  - apply gt0_false in E5. intros [= <-]. split; [congruence | lra].
  - apply gt0_false in E4. intros [= <-]. split; [congruence | lra].
  - apply gt0_false in E4. intros [= <-]. split; [congruence | lra].
Qed.

(** A whole, positive exponent on a base above one gives a power above
    one: the divisor of the payment is then not zero. *)
Lemma py_pow_gt_1 (b e : Q) :
  1 < b -> 0 < e -> is_integral e = true -> 1 < py_pow libm_pow b e.
Proof.
  intros Hb He Hi. unfold py_pow. rewrite Hi.
  apply Qpower_1_lt; auto.
  apply Qeq_bool_iff in Hi. rewrite Hi in He.
  change 0 with (inject_Z 0) in He. now rewrite <- Zlt_Qlt in He.
Qed.

Lemma financing_of_returns (financial_data : list pyval) (nc : Q) :
  is_integral (num (getitem financial_data 5) * 12) = true ->
  exists f, financing_of libm_pow financial_data nc = Ok f.
Proof.
  intros Hi. unfold financing_of.
  destruct (gt0 (num (getitem financial_data 4))) eqn:E4;
  destruct (gt0 (num (getitem financial_data 5))) eqn:E5; cbn [andb];
    try (eexists; reflexivity).
  apply gt0_true in E4, E5.
  set (mr := num (getitem financial_data 4) / 12 / 100).
  assert (Hmr : 0 < mr).
  { unfold mr, Qdiv. repeat apply Qmult_lt_0_compat; auto; reflexivity. }
  pose proof (py_pow_gt_1 (1 + mr) (num (getitem financial_data 5) * 12)
                ltac:(lra) ltac:(lra) Hi) as Hp.
  unfold py_div.
  destruct (Qeq_bool _ 0) eqn:E.
  - apply Qeq_bool_iff in E. lra.
  - cbn [bind]. eexists; reflexivity.
Qed.

(** ** The projection as a whole *)

(** What a returned report is made of. *)
Lemma calculate_detailed_financials_Ok (conn : connection)
    (property_id years : Z) (r : report) :
  calculate_detailed_financials calculate_solar_potential libm_pow
    conn property_id years = Ok r ->
  exists financial_data,
    let annual_production := calculate_solar_potential property_id in
    fetchone conn property_id = Some financial_data /\
    years <> 0%Z /\
    financing_of libm_pow financial_data
      (net_cost financial_data annual_production) = Ok (financing r) /\
    yearly_analysis r =
      map (entry_of_year financial_data annual_production)
          (range 1 (years + 1)) /\
    break_even_year (rep_summary r) =
      first_break_even (yearly_analysis r)
        (net_cost financial_data annual_production) /\
    rep_system_details r =
      mk_system_details
        (py_round (system_size_kw annual_production) 2)
        (py_round (base_cost financial_data annual_production) 2)
        (py_round (num (getitem financial_data 3)) 2)
        (py_round (net_cost financial_data annual_production) 2) /\
    total_25_year_savings (rep_summary r) =
      py_round (cumulative_after financial_data annual_production years) 2.
Proof.
  unfold calculate_detailed_financials.
  destruct (fetchone conn property_id) as [fd |]; [| discriminate].
  destruct (financing_of _ _ _) as [f | e] eqn:F; cbn [bind]; [| discriminate].
  destruct (py_div _ _) as [avg | e] eqn:D; cbn [bind]; [| discriminate].
  intros [= <-]. exists fd. cbn.
  apply py_div_Ok in D. destruct D as [Hy _].
  repeat split; auto.
  - intros ->. now apply Hy.
  - apply yearly_analysis_upto.
Qed.

(** The projection returns whenever the row exists, the horizon is not
    zero and the financing block returns. *)
Lemma calculate_detailed_financials_returns (conn : connection)
    (property_id years : Z) (financial_data : list pyval)
    (f : option financing_details) :
  fetchone conn property_id = Some financial_data ->
  years <> 0%Z ->
  financing_of libm_pow financial_data
    (net_cost financial_data (calculate_solar_potential property_id)) = Ok f ->
  exists r,
    calculate_detailed_financials calculate_solar_potential libm_pow
      conn property_id years = Ok r /\ financing r = f.
Proof.
  intros Hf Hy HF. unfold calculate_detailed_financials.
  rewrite Hf, HF. cbn [bind]. unfold py_div.
  destruct (Qeq_bool (inject_Z years) 0) eqn:E.
  - apply Qeq_bool_iff in E. change 0 with (inject_Z 0) in E.
    apply (proj1 (inject_Z_injective years 0)) in E. contradiction.
  - cbn [bind]. eexists. split; reflexivity.
Qed.

End Run.

(** ** The loop in double precision *)

Section DoubleLoop.

Local Open Scope float_scope.

Variable financial_data : list Double.pyval.
Variable annual_production : float.

Let starting_rate := Double.num (Double.getitem financial_data 1).
Let yearly_cost := Double.num (Double.getitem financial_data 6).
Let escalation := Double.num (Double.getitem financial_data 7).
Let nc := Double.net_cost financial_data annual_production.

Lemma double_loop_upto_nonpos (n : Z) :
  (n <= 0)%Z ->
  Double.loop_upto financial_data annual_production n
  = Double.loop_init financial_data.
Proof.
  intros H. unfold Double.loop_upto. rewrite range_nonpos by lia. reflexivity.
Qed.

(** After [n] years the loop holds the running sum and the rate of the
    recurrence, and has recorded its entries. *)
Lemma double_loop_upto (n : nat) :
  Double.loop_upto financial_data annual_production (Z.of_nat n)
  = Double.mk_loop_state
      (Double.spec_cumulative_savings annual_production starting_rate
         yearly_cost escalation n)
      (Double.spec_rate starting_rate escalation n)
      (map (Double.spec_entry annual_production starting_rate yearly_cost
              escalation nc) (seq 1 n)).
Proof.
  induction n as [| n IH].
  - rewrite double_loop_upto_nonpos by lia. reflexivity.
  - unfold Double.loop_upto in *.
    replace (Z.of_nat (S n) + 1)%Z with (Z.of_nat n + 1 + 1)%Z by lia.
    rewrite range_snoc by lia. rewrite fold_left_app, IH.
    cbn [fold_left]. unfold Double.loop_body.
    cbn [Double.st_cumulative_savings Double.st_electricity_rate
         Double.st_yearly_analysis].
    rewrite seq_S, map_app. cbn [map].
    replace (Z.of_nat n + 1)%Z with (Z.of_nat (S n)) by lia.
    replace (1 + n)%nat with (S n) by lia.
    reflexivity.
Qed.

Lemma double_loop_upto_Z (years : Z) :
  Double.loop_upto financial_data annual_production years
  = Double.mk_loop_state
      (Double.spec_cumulative_savings annual_production starting_rate
         yearly_cost escalation (Z.to_nat years))
      (Double.spec_rate starting_rate escalation (Z.to_nat years))
      (map (Double.spec_entry annual_production starting_rate yearly_cost
              escalation nc) (seq 1 (Z.to_nat years))).
Proof.
  destruct (Z.le_gt_cases years 0) as [H | H].
  - rewrite double_loop_upto_nonpos by exact H.
    replace (Z.to_nat years) with O by lia. reflexivity.
  - rewrite <- double_loop_upto. f_equal. lia.
Qed.

End DoubleLoop.

(** The entries of a table made by a function of the year. *)
Lemma double_entry_at_table (f : nat -> Double.year_entry) (n : nat) (y : Z)
    (e : Double.year_entry) :
  Double.entry_at (map f (seq 1 n)) y = Some e <->
  (1 <= y <= Z.of_nat n)%Z /\ e = f (Z.to_nat y).
Proof.
  unfold Double.entry_at. destruct (Z.leb_spec 1 y) as [H1 | H1].
  - rewrite nth_error_map.
    destruct (Nat.lt_ge_cases (Z.to_nat (y - 1)) n) as [Hk | Hk].
    + rewrite nth_error_seq.
      destruct (Nat.ltb_spec (Z.to_nat (y - 1)) n); [| lia]. cbn [option_map].
      replace (1 + Z.to_nat (y - 1))%nat with (Z.to_nat y) by lia.
      split; [intros [= <-]; split; [lia | reflexivity] | intros [_ ->]; reflexivity].
    + assert (E : nth_error (seq 1 n) (Z.to_nat (y - 1)) = None)
        by (apply nth_error_None; rewrite length_seq; lia).
      rewrite E. cbn [option_map]. split; [discriminate | lia].
  - split; [discriminate | lia].
Qed.

(** The year reported is the first whose recorded cumulative savings
    reaches the net cost. *)
Lemma double_first_break_even_Some (f : nat -> Double.year_entry) (n : nat)
    (nc : float) (y : Z) :
  (forall k, Double.year (f k) = Z.of_nat k) ->
  Double.first_break_even (map f (seq 1 n)) nc = Some y <->
  (1 <= y <= Z.of_nat n)%Z /\
  PrimFloat.leb nc (Double.cumulative_savings (f (Z.to_nat y))) = true /\
  forall y', (1 <= y' < y)%Z ->
    PrimFloat.leb nc (Double.cumulative_savings (f (Z.to_nat y'))) = false.
Proof.
  intros Hyear. unfold Double.first_break_even.
  destruct (find _ (map f (seq 1 n))) as [e |] eqn:F; cbn [option_map].
  - apply find_first in F. destruct F as [k [Hk [Pe Hfirst]]].
    assert (Hke : Double.entry_at (map f (seq 1 n)) (Z.of_nat (S k)) = Some e).
    { unfold Double.entry_at.
      destruct (Z.leb_spec 1 (Z.of_nat (S k))); [| lia].
      replace (Z.to_nat (Z.of_nat (S k) - 1)) with k by lia. exact Hk. }
    apply double_entry_at_table in Hke. destruct Hke as [Hkn He].
    rewrite Nat2Z.id in He. subst e. rewrite Hyear.
    assert (Hbefore : forall y', (1 <= y' < Z.of_nat (S k))%Z ->
              PrimFloat.leb nc (Double.cumulative_savings (f (Z.to_nat y')))
              = false).
    { intros y' Hy'.
      apply (Hfirst (Z.to_nat (y' - 1)) (f (Z.to_nat y'))); [lia |].
      assert (Ha : Double.entry_at (map f (seq 1 n)) y' = Some (f (Z.to_nat y')))
        by (apply double_entry_at_table; split; [lia | reflexivity]).
      unfold Double.entry_at in Ha.
      destruct (Z.leb_spec 1 y'); [exact Ha | lia]. }
    split.
    + intros E. assert (Ey : y = Z.of_nat (S k)) by congruence. subst y.
      rewrite Nat2Z.id. repeat split; auto; lia.
    + intros [Hy [Hge Hlt]]. f_equal.
      destruct (Z.lt_trichotomy y (Z.of_nat (S k))) as [L | [E | G]]; auto.
      * rewrite (Hbefore y (conj (proj1 Hy) L)) in Hge. discriminate.
      * specialize (Hlt (Z.of_nat (S k)) ltac:(lia)).
        rewrite Nat2Z.id in Hlt. congruence.
  - split; [discriminate |]. intros [Hy [Hge _]].
    pose proof (find_none _ _ F (f (Z.to_nat y))) as N. cbv beta in N.
    rewrite N in Hge; [discriminate |].
    apply (nth_error_In _ (Z.to_nat (y - 1))).
    assert (Ha : Double.entry_at (map f (seq 1 n)) y = Some (f (Z.to_nat y)))
      by (apply double_entry_at_table; split; [lia | reflexivity]).
    unfold Double.entry_at in Ha.
    destruct (Z.leb_spec 1 y); [exact Ha | lia].
Qed.


(** ** What a returned report holds, in double precision *)

Lemma double_py_div_Ok (x y q : float) :
  Double.py_div x y = Double.Ok q <->
  PrimFloat.eqb y 0 = false /\ q = PrimFloat.div x y.
Proof.
  unfold Double.py_div. destruct (PrimFloat.eqb y 0).
  - split; [discriminate | intros [H _]; discriminate].
  - split; [intros [= <-]; auto | intros [_ ->]; reflexivity].
Qed.

Lemma double_spec_entry_year (ap r0 m g nc : float) (k : nat) :
  Double.year (Double.spec_entry ap r0 m g nc k) = Z.of_nat k.
Proof. reflexivity. Qed.

Section DoubleRun.

Variable calculate_solar_potential : Z -> float.
Variable float_pow : float -> float -> Double.result float.

(** A returned report is made of the fetched row's cost basis, the
    financing block, the entries of the recurrence over the columns the
    loop reads, and the summary of its running sum. *)
Lemma double_calculate_Ok (conn : Double.connection) (pid years : Z)
    (r : Double.report) :
  Double.calculate_detailed_financials calculate_solar_potential float_pow
    conn pid years = Double.Ok r ->
  exists financial_data,
    Double.fetchone conn pid = Some financial_data /\
    let ap := calculate_solar_potential pid in
    let r0 := Double.num (Double.getitem financial_data 1) in
    let m := Double.num (Double.getitem financial_data 6) in
    let g := Double.num (Double.getitem financial_data 7) in
    let nc := Double.net_cost financial_data ap in
    let n := Z.to_nat years in
    let table := map (Double.spec_entry ap r0 m g nc) (seq 1 n) in
    let total := Double.spec_cumulative_savings ap r0 m g n in
    Double.financing_of float_pow financial_data nc
      = Double.Ok (Double.financing r) /\
    PrimFloat.eqb (Double.float_of_int years) 0 = false /\
    Double.rep_system_details r
      = Double.mk_system_details
          (Double.py_round (Double.system_size_kw ap) 2)
          (Double.py_round (Double.base_cost financial_data ap) 2)
          (Double.py_round (Double.num (Double.getitem financial_data 3)) 2)
          (Double.py_round nc 2) /\
    Double.yearly_analysis r = table /\
    Double.rep_summary r
      = Double.mk_summary
          (Double.py_round total 2)
          (Double.py_round (PrimFloat.div total (Double.float_of_int years)) 2)
          (Double.first_break_even table nc).
Proof.
  unfold Double.calculate_detailed_financials.
  destruct (Double.fetchone conn pid) as [fd |]; [| discriminate].
  intros H. exists fd. split; [reflexivity |]. cbv zeta.
  destruct (Double.financing_of float_pow fd _) as [fin | e] eqn:Hfin;
    cbn [Double.bind] in H; [| discriminate].
  rewrite double_loop_upto_Z in H.
  cbn [Double.st_cumulative_savings Double.st_yearly_analysis] in H.
  destruct (Double.py_div _ (Double.float_of_int years)) as [avg | e] eqn:Havg;
    cbn [Double.bind] in H; [| discriminate].
  apply double_py_div_Ok in Havg. destruct Havg as [Hnz ->].
  injection H as <-. cbn. auto.
Qed.

End DoubleRun.

(** * The claims of the specification *)

(** ** Missing financial data *)

(** C9, as the code has it: a property without a row in [financial_data]
    makes the projection raise [ValueError("Financial data not found for
    property")], whatever the horizon; no report, default or partial, is
    returned. *)
Theorem missing_financial_data_raises_ValueError
    (calculate_solar_potential : Z -> Q) (libm_pow : Q -> Q -> Q)
    (conn : connection) (pid years : Z) :
  (forall row, In row conn -> property_id row <> pid) ->
  calculate_detailed_financials calculate_solar_potential libm_pow
    conn pid years
  = Raise (ValueError "Financial data not found for property").
Proof.
  intros H. unfold calculate_detailed_financials.
  apply fetchone_None in H. rewrite H. reflexivity.
Qed.

Lemma missing_financial_data_raises_ValueError_witness :
  (forall row, In row main_conn -> property_id row <> 2%Z) /\
  calculate_detailed_financials potential_14600 pow_not_consulted main_conn 2 25
  = Raise (ValueError "Financial data not found for property").
Proof.
  assert (H : forall row, In row main_conn -> property_id row <> 2%Z).
  { intros row [<- | []]. vm_compute. discriminate. }
  split; [exact H |].
  exact (missing_financial_data_raises_ValueError
           potential_14600 pow_not_consulted main_conn 2 25 H).
Defined.

(** C9 as stated fails: the exception raised for a property without
    financial data is a [ValueError], not a [MissingFinancialDataError]. *)
Lemma missing_financial_data_not_MissingFinancialDataError :
  exists e,
    calculate_detailed_financials potential_14600 pow_not_consulted [] 1 25
    = Raise e /\
    exn_class e <> "MissingFinancialDataError"%string.
Proof.
  eexists. split; [reflexivity |]. vm_compute. discriminate.
Qed.

(** ** The columns the projection reads

    The tuple of [SELECT *] starts with [id] and [property_id]; the
    projection indexes it as if it started with [property_id]. Each
    parameter it reads is therefore the column one place before the one
    its comment names. *)

(** What the loop reads from a stored row: the starting rate is
    [property_id], the amount taken off each year is [financing_term], the
    yearly growth of the rate is [maintenance_cost_annual]. *)
Lemma loop_reads_of_row (row : financial_row) (annual_production : Q) (y : Z) :
  (1 <= y)%Z ->
  rate_in_year (select_star row) annual_production 1
    = inject_Z (property_id row) /\
  net_savings_in_year (select_star row) annual_production y
    = annual_production * (1 - (5 # 1000) * inject_Z y)
      * rate_in_year (select_star row) annual_production y
      - inject_Z (financing_term row) /\
  rate_in_year (select_star row) annual_production (y + 1)
    = rate_in_year (select_star row) annual_production y
      * (1 + maintenance_cost_annual row).
Proof.
  intros Hy. split; [apply rate_in_year_1 |]. split; [reflexivity |].
  now rewrite rate_in_year_step.
Qed.

(** What the cost basis reads from a stored row: the cost per watt is
    taken from [electricity_rate], the incentives from
    [installation_cost_per_watt]. *)
Lemma cost_reads_of_row (row : financial_row) (annual_production : Q) :
  base_cost (select_star row) annual_production
    = annual_production / (365 * 4) * 1000 * electricity_rate row /\
  net_cost (select_star row) annual_production
    = base_cost (select_star row) annual_production
      - installation_cost_per_watt row.
Proof. split; reflexivity. Qed.

(** What the financing test reads from a stored row: [incentives] and
    [financing_rate]. *)
Lemma financing_reads_of_row (libm_pow : Q -> Q -> Q) (row : financial_row)
    (nc : Q) (f : option financing_details) :
  financing_of libm_pow (select_star row) nc = Ok f ->
  (f <> None <-> 0 < incentives row /\ 0 < financing_rate row).
Proof. apply financing_of_present. Qed.

(** C1 (defect of the code): on the parameters of the script at the end
    of the source file, with 14600 kWh of annual production, the first
    year's recorded savings are 14600 * 0.995 * 1 - 20 = 14507 and the
    recorded rate is 1 * (1 + 200) = 201: the rate started at
    [property_id], [financing_term] was subtracted and the rate grew by
    [maintenance_cost_annual]. From the stored rate 0.12, maintenance cost
    200 and escalation 0.03 the claim gives 1543.24 and 0.124. *)
Theorem yearly_loop_reads_shifted_columns :
  exists r e1,
    calculate_detailed_financials potential_14600 pow_not_consulted
      main_conn 1 25 = Ok r /\
    entry_at (yearly_analysis r) 1 = Some e1 /\
    yearly_savings e1 == 14507 /\
    entry_electricity_rate e1 == 201 /\
    ~ yearly_savings e1
      == py_round (14600 * (1 - (5 # 1000) * 1) * electricity_rate main_row
                   - maintenance_cost_annual main_row) 2 /\
    ~ entry_electricity_rate e1
      == py_round (electricity_rate main_row
                   * (1 + electricity_price_increase main_row)) 3.
Proof.
  do 2 eexists.
  split; [vm_compute; reflexivity |].
  split; [vm_compute; reflexivity |].
  split; [vm_compute; reflexivity |].
  split; [vm_compute; reflexivity |].
  split; vm_compute; intros H; discriminate H.
Qed.

(** C2 (defect of the code): on the same input the reported base cost is
    10 kW * 1000 * 0.12 = 1200, the reported incentives are 2.75 and the
    reported net cost is 1197.25: the cost per watt was read from
    [electricity_rate] and the incentives from
    [installation_cost_per_watt]. From the stored cost per watt 2.75 and
    incentives 5000 the claim gives 27500, 5000 and 22500. *)
Theorem cost_basis_reads_shifted_columns :
  exists r,
    calculate_detailed_financials potential_14600 pow_not_consulted
      main_conn 1 25 = Ok r /\
    size_kw (rep_system_details r) == 10 /\
    sd_base_cost (rep_system_details r) == 1200 /\
    sd_incentives (rep_system_details r) == 275 # 100 /\
    sd_net_cost (rep_system_details r) == 119725 # 100 /\
    ~ sd_base_cost (rep_system_details r)
      == 14600 / (365 * 4) * 1000 * installation_cost_per_watt main_row /\
    ~ sd_incentives (rep_system_details r) == incentives main_row /\
    ~ sd_net_cost (rep_system_details r)
      == 14600 / (365 * 4) * 1000 * installation_cost_per_watt main_row
         - incentives main_row.
Proof.
  eexists.
  split; [vm_compute; reflexivity |].
  split; [vm_compute; reflexivity |].
  split; [vm_compute; reflexivity |].
  split; [vm_compute; reflexivity |].
  split; [vm_compute; reflexivity |].
  split; [| split]; vm_compute; intros H; discriminate H.
Qed.

(** C3 (defect of the code): with a stored financing rate of 4.5 and a
    stored term of 20 years but no incentives, the report has no financing
    section; with incentives and the same rate but a stored term of 0
    years, it has one. The test reads [incentives] and [financing_rate],
    not [financing_rate] and [financing_term]. *)
Theorem financing_presence_reads_shifted_columns :
  (exists r,
     calculate_detailed_financials potential_14600 pow_not_consulted
       conn_no_incentives 1 25 = Ok r /\
     financing r = None) /\
  (exists r f,
     calculate_detailed_financials potential_14600 pow_not_consulted
       conn_zero_term 1 25 = Ok r /\
     financing r = Some f).
Proof.
  split.
  - eexists. split; vm_compute; reflexivity.
  - do 2 eexists. split; vm_compute; reflexivity.
Qed.

(** ** Financing at a rate of zero *)

(** C5, as the code has it: when the stored financing rate is zero the
    projection returns (for a horizon other than zero) a report whose
    financing section is [None]; the payment formula and its division are
    not evaluated. *)
Theorem zero_financing_rate_skips_financing
    (calculate_solar_potential : Z -> Q) (libm_pow : Q -> Q -> Q)
    (conn : connection) (pid years : Z) (row : financial_row) :
  fetchone conn pid = Some (select_star row) ->
  financing_rate row == 0 ->
  years <> 0%Z ->
  exists r,
    calculate_detailed_financials calculate_solar_potential libm_pow
      conn pid years = Ok r /\
    financing r = None.
Proof.
  intros Hf Hr Hy.
  apply (calculate_detailed_financials_returns _ _ _ _ _ _ _ Hf Hy).
  apply financing_of_skipped. right.
  change (num (getitem (select_star row) 5)) with (financing_rate row). lra.
Qed.

Lemma zero_financing_rate_skips_financing_witness :
  fetchone conn_zero_rate 1 = Some (select_star zero_rate_row) /\
  financing_rate zero_rate_row == 0 /\
  exists r,
    calculate_detailed_financials potential_141620 pow_not_consulted
      conn_zero_rate 1 25 = Ok r /\
    financing r = None.
Proof.
  split; [reflexivity |]. split; [reflexivity |].
  apply (zero_financing_rate_skips_financing potential_141620
           pow_not_consulted conn_zero_rate 1 25 zero_rate_row).
  - reflexivity.
  - reflexivity.
  - discriminate.
Defined.

(** C5 as stated fails: a financing rate of zero over ten years with a
    net cost of 12000 yields no monthly payment at all, not 100.00. *)
Lemma zero_financing_rate_no_monthly_payment :
  exists r,
    calculate_detailed_financials potential_141620 pow_not_consulted
      conn_zero_rate 1 25 = Ok r /\
    net_cost (select_star zero_rate_row) 141620 == 12000 /\
    sd_net_cost (rep_system_details r) == 12000 /\
    ~ (exists f, financing r = Some f /\ monthly_payment f == 100).
Proof.
  eexists.
  split; [vm_compute; reflexivity |].
  split; [vm_compute; reflexivity |].
  split; [vm_compute; reflexivity |].
  intros [f [H _]]. vm_compute in H. discriminate H.
Qed.

(** ** The break-even year *)



(** C10, as the code has it: the break-even year is found by comparing
    the cumulative savings recorded in the yearly table, which are the
    running sums rounded to 2 decimals, with the unrounded net cost. So a
    year of the horizon whose exact cumulative savings are below the net
    cost, no earlier year having been reported, is reported as the
    break-even year exactly when its rounded value is at least the net
    cost. *)
Theorem break_even_compares_rounded_savings
    (calculate_solar_potential : Z -> float)
    (float_pow : float -> float -> Double.result float)
    (conn : Double.connection) (pid years : Z) (r : Double.report)
    (financial_data : list Double.pyval) :
  Double.calculate_detailed_financials calculate_solar_potential float_pow
    conn pid years = Double.Ok r ->
  Double.fetchone conn pid = Some financial_data ->
  let annual_production := calculate_solar_potential pid in
  let net_cost := Double.net_cost financial_data annual_production in
  let cumulative :=
    Double.spec_cumulative_savings annual_production
      (Double.num (Double.getitem financial_data 1))
      (Double.num (Double.getitem financial_data 6))
      (Double.num (Double.getitem financial_data 7)) in
  let recorded y := Double.py_round (cumulative (Z.to_nat y)) 2 in
  (forall y e, Double.entry_at (Double.yearly_analysis r) y = Some e ->
     Double.cumulative_savings e = recorded y) /\
  Double.break_even_year (Double.rep_summary r)
    = Double.first_break_even (Double.yearly_analysis r) net_cost /\
  (forall y, (1 <= y <= years)%Z ->
     PrimFloat.ltb (cumulative (Z.to_nat y)) net_cost = true ->
     (forall y', (1 <= y' < y)%Z ->
        PrimFloat.leb net_cost (recorded y') = false) ->
     (Double.break_even_year (Double.rep_summary r) = Some y <->
      PrimFloat.leb net_cost (recorded y) = true)).
Proof.
  intros Hr Hf ap nc cum recorded.
  apply double_calculate_Ok in Hr.
  destruct Hr as [fd [Hf' [_ [_ [_ [Htbl Hsum]]]]]].
  rewrite Hf in Hf'. injection Hf' as <-.
  fold ap nc in Htbl, Hsum. rewrite Hsum, Htbl.
  cbn [Double.break_even_year].
  split; [| split; [reflexivity |]].
  - intros y e He. apply double_entry_at_table in He.
    destruct He as [_ ->]. reflexivity.
  - intros y Hy _ Hbefore.
    rewrite double_first_break_even_Some by apply double_spec_entry_year.
    cbn [Double.cumulative_savings Double.spec_entry]. fold cum.
    split.
    + intros [_ [H _]]. exact H.
    + intros H. split; [lia |]. split; [exact H | exact Hbefore].
Qed.

Lemma break_even_compares_rounded_savings_witness :
  exists r,
    Double.calculate_detailed_financials DoubleExamples.potential_999_997
      DoubleExamples.pow_not_called DoubleExamples.conn_just_below 1 1
    = Double.Ok r /\
    Double.net_cost (Double.select_star DoubleExamples.row_just_below)
      (DoubleExamples.potential_999_997 1) = 995%float /\
    PrimFloat.ltb
      (Double.spec_cumulative_savings (DoubleExamples.potential_999_997 1)
         1 0 0 1)
      995 = true /\
    Double.break_even_year (Double.rep_summary r) = Some 1%Z.
Proof.
  eexists. split; [vm_compute; reflexivity |].
  split; [vm_compute; reflexivity |].
  split; [vm_compute; reflexivity |].
  match goal with
  | |- Double.break_even_year (Double.rep_summary ?r) = _ =>
      destruct (break_even_compares_rounded_savings
                  DoubleExamples.potential_999_997
                  DoubleExamples.pow_not_called
                  DoubleExamples.conn_just_below 1 1 r
                  (Double.select_star DoubleExamples.row_just_below)
                  ltac:(vm_compute; reflexivity) eq_refl)
        as [_ [_ Hnear]]
  end.
  apply (Hnear 1%Z).
  - lia.
  - vm_compute. reflexivity.
  - intros y' Hy'. lia.
  - vm_compute. reflexivity.
Defined.

(** C10 as stated fails: with an annual production of 1000 kWh the
    savings of year 1 are 995.0 and the net cost is 995.004 (as a double,
    995.0039999999999): the savings are below the net cost by less than
    half a cent, and no break-even year is reported. *)
Lemma break_even_near_miss_not_reported :
  exists r,
    Double.calculate_detailed_financials DoubleExamples.potential_1000
      DoubleExamples.pow_not_called DoubleExamples.conn_off_cent 1 1
    = Double.Ok r /\
    let net_cost :=
      Double.net_cost (Double.select_star DoubleExamples.row_off_cent)
        1000%float in
    let exact_savings :=
      Double.spec_cumulative_savings 1000%float 1%float 0%float 0%float 1 in
    PrimFloat.ltb exact_savings net_cost = true /\
    PrimFloat.ltb (net_cost - exact_savings) 0.005 = true /\
    Double.break_even_year (Double.rep_summary r) = None.
Proof.
  eexists. split; [vm_compute; reflexivity |]. cbv zeta.
  split; [vm_compute; reflexivity |].
  split; vm_compute; reflexivity.
Qed.

(** ** Degradation of the production *)

(** C6, as the code has it: in every year [y] of the horizon the loop
    computes the production [annual_production * (1 - 0.005 * y)], linear
    in [y]; the production recorded for the year is that value rounded to
    2 decimals, and the savings recorded for the year are computed from
    the unrounded value: it is multiplied by the year's rate, the column
    the loop subtracts is taken off and the result is rounded. Nothing
    guards the sign: what is recorded is the rounding of the formula's
    value, whatever its sign. *)
Theorem production_is_linear_and_recorded_rounded
    (calculate_solar_potential : Z -> float)
    (float_pow : float -> float -> Double.result float)
    (conn : Double.connection) (pid years : Z) (r : Double.report)
    (financial_data : list Double.pyval) :
  Double.calculate_detailed_financials calculate_solar_potential float_pow
    conn pid years = Double.Ok r ->
  Double.fetchone conn pid = Some financial_data ->
  let annual_production := calculate_solar_potential pid in
  forall y, (1 <= y <= years)%Z ->
    let linear :=
      (annual_production * (1 - 0.005 * Double.float_of_int y))%float in
    let rate :=
      Double.spec_rate (Double.num (Double.getitem financial_data 1))
        (Double.num (Double.getitem financial_data 7))
        (Z.to_nat (y - 1)) in
    exists e,
      Double.entry_at (Double.yearly_analysis r) y = Some e /\
      Double.year e = y /\
      Double.production_kwh e = Double.py_round linear 2 /\
      Double.yearly_savings e
        = Double.py_round
            (linear * rate - Double.num (Double.getitem financial_data 6))%float
            2.
Proof.
  intros Hr Hf ap y Hy linear rate.
  apply double_calculate_Ok in Hr.
  destruct Hr as [fd [Hf' [_ [_ [_ [Htbl _]]]]]].
  rewrite Hf in Hf'. injection Hf' as <-.
  fold ap in Htbl. rewrite Htbl.
  eexists. split; [apply double_entry_at_table; split; [lia | reflexivity] |].
  cbn [Double.year Double.production_kwh Double.yearly_savings
       Double.spec_entry].
  split; [lia |].
  unfold Double.spec_net_savings, Double.spec_production, linear, rate.
  rewrite Z2Nat.id by lia.
  replace (Nat.pred (Z.to_nat y)) with (Z.to_nat (y - 1)) by lia.
  split; reflexivity.
Qed.

Lemma production_is_linear_and_recorded_rounded_witness :
  exists r e25 e201,
    Double.calculate_detailed_financials DoubleExamples.potential_14600
      DoubleExamples.pow_not_called DoubleExamples.conn_year_4 1 201
    = Double.Ok r /\
    Double.entry_at (Double.yearly_analysis r) 25 = Some e25 /\
    Double.production_kwh e25 = 12775%float /\
    Double.entry_at (Double.yearly_analysis r) 201 = Some e201 /\
    Double.production_kwh e201 = (-73)%float.
Proof.
  eexists.
  match goal with
  | |- exists e25 e201, Double.calculate_detailed_financials _ _ _ _ _
                        = Double.Ok ?r /\ _ =>
      pose proof (production_is_linear_and_recorded_rounded
                    DoubleExamples.potential_14600
                    DoubleExamples.pow_not_called
                    DoubleExamples.conn_year_4 1 201 r
                    (Double.select_star DoubleExamples.row_year_4)
                    ltac:(vm_compute; reflexivity) eq_refl) as H;
      destruct (H 25%Z ltac:(lia)) as [e25 [He25 [_ [Hp25 _]]]];
      destruct (H 201%Z ltac:(lia)) as [e201 [He201 [_ [Hp201 _]]]]
  end.
  exists e25, e201.
  split; [vm_compute; reflexivity |].
  split; [exact He25 |]. split; [rewrite Hp25; vm_compute; reflexivity |].
  split; [exact He201 |]. rewrite Hp201. vm_compute. reflexivity.
Defined.

(** C6 as stated fails: with an annual production of 0.1 kWh the
    production recorded for year 1 is 0.1, not 0.1 * (1 - 0.005 * 1). *)
Lemma recorded_production_differs_from_formula :
  exists r e,
    Double.calculate_detailed_financials DoubleExamples.potential_tenth
      DoubleExamples.pow_not_called DoubleExamples.conn_script 1 1
    = Double.Ok r /\
    Double.entry_at (Double.yearly_analysis r) 1 = Some e /\
    Double.production_kwh e = DoubleExamples.potential_tenth 1 /\
    PrimFloat.eqb (Double.production_kwh e)
      (DoubleExamples.potential_tenth 1 * (1 - 0.005 * 1))%float
    = false.
Proof.
  do 2 eexists.
  split; [vm_compute; reflexivity |].
  split; [vm_compute; reflexivity |].
  split; vm_compute; reflexivity.
Qed.

(** The order of the recorded productions is stated over the exact
    model: rounding to the nearest double and to 2 decimals keeps the
    order of the values, and the margins below (half a percent of the
    annual production against one cent) are far above the rounding error
    of a double. *)


Lemma py_round_0 (n : nat) : py_round 0 n == 0.
Proof.
  unfold py_round. rewrite Qmult_0_l.
  change (round_half_even 0) with 0%Z. unfold Qdiv. apply Qmult_0_l.
Qed.






(** ** Return on investment *)


Lemma roi_no_cost (c nc : Q) : nc <= 0 -> roi c nc = 0.
Proof.
  intros H. unfold roi. apply gt0_false in H. now rewrite H.
Qed.




(** * Further properties of the projection *)

(** ** A horizon of zero years *)

(** X1: a horizon of zero years never yields a report: the table is empty,
    but the average of the summary divides by the horizon. What the call
    raises for a stored row is what the financing block raises, if it does
    (the [OverflowError] of [**], say), and [ZeroDivisionError] otherwise. *)
Theorem zero_horizon_raises
    (calculate_solar_potential : Z -> float)
    (float_pow : float -> float -> Double.result float)
    (conn : Double.connection) (pid : Z) :
  (forall r,
     Double.calculate_detailed_financials calculate_solar_potential float_pow
       conn pid 0 <> Double.Ok r) /\
  (forall financial_data,
     Double.fetchone conn pid = Some financial_data ->
     match Double.financing_of float_pow financial_data
             (Double.net_cost financial_data (calculate_solar_potential pid))
     with
     | Double.Ok _ =>
         Double.calculate_detailed_financials calculate_solar_potential
           float_pow conn pid 0 = Double.Raise Double.ZeroDivisionError
     | Double.Raise e =>
         Double.calculate_detailed_financials calculate_solar_potential
           float_pow conn pid 0 = Double.Raise e
     end).
Proof.
  split.
  - intros r Hr. apply double_calculate_Ok in Hr.
    destruct Hr as [fd [_ [_ [Hnz _]]]]. vm_compute in Hnz. discriminate.
  - intros fd Hf. unfold Double.calculate_detailed_financials. rewrite Hf.
    destruct (Double.financing_of _ _ _) as [f | e]; reflexivity.
Qed.

(** ** The yearly table and the summary *)

Section Table.

Variable calculate_solar_potential : Z -> Q.
Variable libm_pow : Q -> Q -> Q.

Lemma map_year_entries (financial_data : list pyval) (annual_production : Q)
    (l : list Z) :
  map year (map (entry_of_year financial_data annual_production) l) = l.
Proof.
  induction l as [| y l IH]; [reflexivity |]. simpl. now rewrite IH.
Qed.

(** X4: the table has one entry per year of the horizon, numbered
    1, 2, ..., [years] in this order; it is empty for a horizon below 1. *)
Theorem yearly_table_years (conn : connection) (pid years : Z) (r : report) :
  calculate_detailed_financials calculate_solar_potential libm_pow
    conn pid years = Ok r ->
  map year (yearly_analysis r) = range 1 (years + 1) /\
  List.length (yearly_analysis r) = Z.to_nat years.
Proof.
  intros Hr. apply calculate_detailed_financials_Ok in Hr.
  destruct Hr as [fd [_ [_ [_ [Htbl _]]]]]. cbv zeta in Htbl.
  rewrite Htbl. split.
  - apply map_year_entries.
  - rewrite length_map, range_length. f_equal. lia.
Qed.

(** The average of the summary. *)
Lemma calculate_detailed_financials_average (conn : connection)
    (pid years : Z) (r : report) (financial_data : list pyval) :
  calculate_detailed_financials calculate_solar_potential libm_pow
    conn pid years = Ok r ->
  fetchone conn pid = Some financial_data ->
  average_annual_savings (rep_summary r) =
  py_round (cumulative_after financial_data (calculate_solar_potential pid) years
            / inject_Z years) 2.
Proof.
  unfold calculate_detailed_financials. intros Hr Hf. rewrite Hf in Hr.
  destruct (financing_of _ _ _) as [f | e]; cbn [bind] in Hr; [| discriminate].
  destruct (py_div _ _) as [avg | e] eqn:D; cbn [bind] in Hr; [| discriminate].
  apply (py_div_Ok libm_pow) in D. destruct D as [_ ->].
  injection Hr as <-. reflexivity.
Qed.

(** X5: a horizon below zero gives a report without years: an empty table,
    total and average savings of 0 and no break-even year. *)
Theorem negative_horizon_empty_report
    (conn : connection) (pid years : Z) (r : report) :
  calculate_detailed_financials calculate_solar_potential libm_pow
    conn pid years = Ok r ->
  (years < 0)%Z ->
  yearly_analysis r = [] /\
  total_25_year_savings (rep_summary r) == 0 /\
  average_annual_savings (rep_summary r) == 0 /\
  break_even_year (rep_summary r) = None.
Proof.
  intros Hr Hy.
  pose proof Hr as Hr'. apply calculate_detailed_financials_Ok in Hr'.
  destruct Hr' as [fd [Hf [_ [_ [Htbl [Hbe [_ Htot]]]]]]]. cbv zeta in *.
  pose proof (calculate_detailed_financials_average conn pid years r fd Hr Hf)
    as Havg.
  assert (Hc : cumulative_after fd (calculate_solar_potential pid) years = 0).
  { unfold cumulative_after. now rewrite loop_upto_nonpos by lia. }
  rewrite range_nonpos in Htbl by lia. cbn [map] in Htbl.
  split; [exact Htbl |].
  split; [rewrite Htot, Hc; apply py_round_0 |].
  split.
  - rewrite Havg, Hc. unfold Qdiv. rewrite Qmult_0_l. apply py_round_0.
  - rewrite Hbe, Htbl. reflexivity.
Qed.

End Table.

(** ** The table and the summary in double precision *)

Section DoubleTable.

Variable calculate_solar_potential : Z -> float.
Variable float_pow : float -> float -> Double.result float.

(** X7: the table is the recurrence of the specification's yearly loop,
    run in double precision over the columns the loop reads: the entry of
    year [y] holds the year, the production [annual_production * (1 - 0.005
    * y)], the rate after [y] escalations, the net savings of the year, the
    running sum of the net savings of the years 1 to [y] and the return of
    that sum on the net cost, each rounded to 2 decimals, the rate to 3. *)
Theorem yearly_table_is_the_recurrence
    (conn : Double.connection) (pid years : Z) (r : Double.report)
    (financial_data : list Double.pyval) :
  Double.calculate_detailed_financials calculate_solar_potential float_pow
    conn pid years = Double.Ok r ->
  Double.fetchone conn pid = Some financial_data ->
  let annual_production := calculate_solar_potential pid in
  let starting_rate := Double.num (Double.getitem financial_data 1) in
  let yearly_cost := Double.num (Double.getitem financial_data 6) in
  let escalation := Double.num (Double.getitem financial_data 7) in
  let net_cost := Double.net_cost financial_data annual_production in
  forall y e,
    Double.entry_at (Double.yearly_analysis r) y = Some e <->
    (1 <= y <= years)%Z /\
    e = Double.mk_year_entry y
          (Double.py_round
             (Double.spec_production annual_production (Z.to_nat y)) 2)
          (Double.py_round
             (Double.spec_rate starting_rate escalation (Z.to_nat y)) 3)
          (Double.py_round
             (Double.spec_net_savings annual_production starting_rate
                yearly_cost escalation (Z.to_nat y)) 2)
          (Double.py_round
             (Double.spec_cumulative_savings annual_production starting_rate
                yearly_cost escalation (Z.to_nat y)) 2)
          (Double.py_round
             (Double.spec_roi annual_production starting_rate yearly_cost
                escalation net_cost (Z.to_nat y)) 2).
Proof.
  intros Hr Hf ap r0 m g nc y e.
  apply double_calculate_Ok in Hr.
  destruct Hr as [fd [Hf' [_ [_ [_ [Htbl _]]]]]].
  rewrite Hf in Hf'. injection Hf' as <-.
  fold ap r0 m g nc in Htbl. rewrite Htbl.
  rewrite double_entry_at_table. unfold Double.spec_entry.
  split; intros [Hy ->]; (split; [lia |]).
  - rewrite Z2Nat.id by lia. reflexivity.
  - rewrite Z2Nat.id by lia. reflexivity.
Qed.

(** X6: from a horizon of one year on, the total of the summary (its key
    says 25 years) is the cumulative savings recorded for the last year of
    the horizon given, and the average is the unrounded running sum of that
    year divided by the horizon, then rounded. *)
Theorem summary_totals_last_year
    (conn : Double.connection) (pid years : Z) (r : Double.report)
    (financial_data : list Double.pyval) :
  Double.calculate_detailed_financials calculate_solar_potential float_pow
    conn pid years = Double.Ok r ->
  Double.fetchone conn pid = Some financial_data ->
  (1 <= years)%Z ->
  let total :=
    Double.spec_cumulative_savings (calculate_solar_potential pid)
      (Double.num (Double.getitem financial_data 1))
      (Double.num (Double.getitem financial_data 6))
      (Double.num (Double.getitem financial_data 7)) (Z.to_nat years) in
  (exists e,
     Double.entry_at (Double.yearly_analysis r) years = Some e /\
     Double.total_25_year_savings (Double.rep_summary r)
     = Double.cumulative_savings e) /\
  Double.total_25_year_savings (Double.rep_summary r)
  = Double.py_round total 2 /\
  Double.average_annual_savings (Double.rep_summary r)
  = Double.py_round (total / Double.float_of_int years)%float 2.
Proof.
  intros Hr Hf Hy total.
  apply double_calculate_Ok in Hr.
  destruct Hr as [fd [Hf' [_ [_ [_ [Htbl Hsum]]]]]].
  rewrite Hf in Hf'. injection Hf' as <-.
  rewrite Hsum, Htbl. cbn [Double.total_25_year_savings
                           Double.average_annual_savings].
  split; [| split; reflexivity].
  eexists. split.
  - apply double_entry_at_table. split; [lia | reflexivity].
  - reflexivity.
Qed.

(** X8: the rate recorded in the entry of year [y] is the rate already
    escalated for year [y + 1]: the savings recorded for year [y + 1] are
    computed with it, those of year [y] with the rate recorded the year
    before (the starting rate in year 1). *)
Theorem recorded_rate_is_next_years
    (conn : Double.connection) (pid years : Z) (r : Double.report)
    (financial_data : list Double.pyval) :
  Double.calculate_detailed_financials calculate_solar_potential float_pow
    conn pid years = Double.Ok r ->
  Double.fetchone conn pid = Some financial_data ->
  let annual_production := calculate_solar_potential pid in
  let rate :=
    Double.spec_rate (Double.num (Double.getitem financial_data 1))
      (Double.num (Double.getitem financial_data 7)) in
  let yearly_cost := Double.num (Double.getitem financial_data 6) in
  rate 0%nat = Double.num (Double.getitem financial_data 1) /\
  forall y e,
    Double.entry_at (Double.yearly_analysis r) y = Some e ->
    Double.entry_electricity_rate e = Double.py_round (rate (Z.to_nat y)) 3 /\
    rate (Z.to_nat y)
    = (rate (Z.to_nat (y - 1))
       * (1 + Double.num (Double.getitem financial_data 7)))%float /\
    Double.yearly_savings e
    = Double.py_round
        (annual_production * (1 - 0.005 * Double.float_of_int y)
         * rate (Z.to_nat (y - 1)) - yearly_cost)%float 2 /\
    forall e',
      Double.entry_at (Double.yearly_analysis r) (y + 1) = Some e' ->
      Double.yearly_savings e'
      = Double.py_round
          (annual_production * (1 - 0.005 * Double.float_of_int (y + 1))
           * rate (Z.to_nat y) - yearly_cost)%float 2.
Proof.
  intros Hr Hf ap rate m. split; [reflexivity |]. intros y e He.
  apply double_calculate_Ok in Hr.
  destruct Hr as [fd [Hf' [_ [_ [_ [Htbl _]]]]]].
  rewrite Hf in Hf'. injection Hf' as <-.
  fold ap in Htbl. rewrite Htbl in *.
  apply double_entry_at_table in He. destruct He as [Hy ->].
  cbn [Double.entry_electricity_rate Double.yearly_savings Double.spec_entry].
  unfold Double.spec_net_savings, Double.spec_production.
  split; [reflexivity |]. split; [| split].
  - unfold rate. replace (Z.to_nat y) with (S (Z.to_nat (y - 1))) by lia.
    reflexivity.
  - rewrite Z2Nat.id by lia.
    replace (Nat.pred (Z.to_nat y)) with (Z.to_nat (y - 1)) by lia.
    reflexivity.
  - intros e' He'. apply double_entry_at_table in He'.
    destruct He' as [Hy' ->]. cbn [Double.yearly_savings Double.spec_entry].
    unfold Double.spec_net_savings, Double.spec_production.
    rewrite Z2Nat.id by lia.
    replace (Nat.pred (Z.to_nat (y + 1))) with (Z.to_nat y) by lia.
    reflexivity.
Qed.

End DoubleTable.

(** * Storing and fetching financial data *)

(** ** The order of timestamps *)

Lemma string_compare_trans (c : comparison) (a b d : string) :
  String.compare a b = c -> String.compare b d = c -> String.compare a d = c.
Proof.
  revert b d. induction a as [| x a IH]; intros [| y b] [| z d];
    cbn [String.compare]; try congruence.
  unfold Ascii.compare.
  destruct (N.compare_spec (Ascii.N_of_ascii x) (Ascii.N_of_ascii y)) as [Exy | Lxy | Gxy];
  destruct (N.compare_spec (Ascii.N_of_ascii y) (Ascii.N_of_ascii z)) as [Eyz | Lyz | Gyz];
  destruct (N.compare_spec (Ascii.N_of_ascii x) (Ascii.N_of_ascii z)) as [Exz | Lxz | Gxz];
    try congruence; try lia; try (intros <-; congruence); eauto.
Qed.

(** ** The latest row *)

(** Appending a row to the rows of a property: it becomes the latest
    exactly when its timestamp is later than that of the latest so far. *)
Lemma latest_snoc (rows : list financial_row) (new : financial_row) :
  latest (rows ++ [new]) =
  match latest rows with
  | None => Some new
  | Some r =>
      match String.compare (timestamp new) (timestamp r) with
      | Gt => Some new
      | _ => Some r
      end
  end.
Proof.
  induction rows as [| x rows IH]; [reflexivity |].
  cbn [app latest]. rewrite IH.
  destruct (latest rows) as [m |];
    [| destruct (String.compare (timestamp new) (timestamp x)); reflexivity].
  destruct (String.compare (timestamp new) (timestamp m)) eqn:Enm;
  destruct (String.compare (timestamp m) (timestamp x)) eqn:Emx.
  - apply String.compare_eq_iff in Enm. rewrite Enm, Emx. reflexivity.
  - apply String.compare_eq_iff in Enm. rewrite Enm, Emx. reflexivity.
  - rewrite Enm. reflexivity.
  - apply String.compare_eq_iff in Emx. rewrite <- Emx, Enm. reflexivity.
  - rewrite (string_compare_trans Lt _ _ _ Enm Emx). reflexivity.
  - rewrite Enm. reflexivity.
  - apply String.compare_eq_iff in Emx. rewrite <- Emx, Enm. reflexivity.
  - reflexivity.
  - rewrite (string_compare_trans Gt _ _ _ Enm Emx), Enm. reflexivity.
Qed.

(** ** Adding and fetching *)

Lemma filter_property_snoc (conn : connection) (new : financial_row) (pid : Z) :
  filter (fun r => (property_id r =? pid)%Z) (conn ++ [new]) =
  filter (fun r => (property_id r =? pid)%Z) conn
  ++ (if (property_id new =? pid)%Z then [new] else []).
Proof. rewrite filter_app. reflexivity. Qed.

(** X11: a row added with a timestamp later than those the property already
    has is the row fetched next, and the fetched tuple holds the row id
    given by the table followed by the arguments in the order of the
    columns. *)
Theorem add_then_fetch (conn : connection) (now : string) (pid : Z)
    (er ic inc fr : Q) (ft : Z) (mc ep : Q) :
  (forall r, In r conn -> property_id r = pid ->
             String.compare now (timestamp r) = Gt) ->
  fetchone (add_financial_data conn now pid er ic inc fr ft mc ep) pid =
  Some [ PyInt (next_rowid conn); PyInt pid; PyFloat er; PyFloat ic;
         PyFloat inc; PyFloat fr; PyInt ft; PyFloat mc; PyFloat ep;
         PyStr now ].
Proof.
  intros Hlater. unfold fetchone, add_financial_data.
  rewrite filter_property_snoc. cbn [property_id]. rewrite Z.eqb_refl.
  rewrite latest_snoc.
  destruct (latest _) as [r |] eqn:L; [| reflexivity].
  apply latest_In, filter_In in L. destruct L as [Hin Hp].
  apply Z.eqb_eq in Hp. cbn [timestamp].
  rewrite (Hlater r Hin Hp). reflexivity.
Qed.

(** X12: a row added with a timestamp earlier than that of the row fetched so
    far does not replace it. *)
Theorem add_earlier_keeps_fetched (conn : connection) (now : string)
    (pid : Z) (er ic inc fr : Q) (ft : Z) (mc ep : Q)
    (t : list pyval) (ts : string) :
  fetchone conn pid = Some t ->
  getitem t 9 = PyStr ts ->
  String.compare now ts = Lt ->
  fetchone (add_financial_data conn now pid er ic inc fr ft mc ep) pid = Some t.
Proof.
  unfold fetchone, add_financial_data. intros Hf Hts Hcmp.
  rewrite filter_property_snoc. cbn [property_id]. rewrite Z.eqb_refl.
  rewrite latest_snoc.
  destruct (latest _) as [r |]; [| discriminate].
  cbn [option_map] in Hf. injection Hf as <-.
  cbn in Hts. injection Hts as <-. cbn [timestamp].
  rewrite Hcmp. reflexivity.
Qed.

(** X13: adding data for one property leaves what is fetched for any other
    property as it was. *)
Theorem add_leaves_other_properties (conn : connection) (now : string)
    (pid other : Z) (er ic inc fr : Q) (ft : Z) (mc ep : Q) :
  other <> pid ->
  fetchone (add_financial_data conn now pid er ic inc fr ft mc ep) other
  = fetchone conn other.
Proof.
  intros Hne. unfold fetchone, add_financial_data.
  rewrite filter_property_snoc. cbn [property_id].
  destruct (Z.eqb_spec pid other) as [E | _].
  - exfalso. apply Hne. symmetry. exact E.
  - now rewrite app_nil_r.
Qed.

(** Once data has been added for a property, some row is fetched for it,
    whatever the table held. *)
Lemma fetchone_after_add (conn : connection) (now : string) (pid : Z)
    (er ic inc fr : Q) (ft : Z) (mc ep : Q) :
  exists t,
    fetchone (add_financial_data conn now pid er ic inc fr ft mc ep) pid
    = Some t.
Proof.
  unfold fetchone, add_financial_data.
  rewrite filter_property_snoc. cbn [property_id]. rewrite Z.eqb_refl.
  rewrite latest_snoc.
  destruct (latest _) as [r |];
    [destruct (String.compare _ _) |]; eexists; reflexivity.
Qed.

(** X14: after [add_financial_data] for a property, a row is fetched for it
    and its projection does not fail for missing data: whatever the call
    does, it does not raise the [ValueError] of the missing row. *)
Theorem projection_after_add_finds_data
    (calculate_solar_potential : Z -> Q) (libm_pow : Q -> Q -> Q)
    (conn : connection) (now : string) (pid : Z)
    (er ic inc fr : Q) (ft : Z) (mc ep : Q) (years : Z) :
  let conn' := add_financial_data conn now pid er ic inc fr ft mc ep in
  (exists t, fetchone conn' pid = Some t) /\
  calculate_detailed_financials calculate_solar_potential libm_pow
    conn' pid years
  <> Raise (ValueError "Financial data not found for property").
Proof.
  intros conn'.
  destruct (fetchone_after_add conn now pid er ic inc fr ft mc ep) as [t Ht].
  fold conn' in Ht. split; [now exists t |].
  unfold calculate_detailed_financials. rewrite Ht.
  destruct (financing_of _ _ _) as [f | e] eqn:F; cbn [bind].
  - destruct (py_div _ _) as [q | e] eqn:D; cbn [bind]; [discriminate |].
    unfold py_div in D. destruct (Qeq_bool _ _); [| discriminate].
    injection D as <-. discriminate.
  - unfold financing_of in F. destruct (gt0 _ && gt0 _); [| discriminate].
    destruct (py_div _ _) as [q | e'] eqn:D; cbn [bind] in F; [discriminate |].
    unfold py_div in D. destruct (Qeq_bool _ _); [| discriminate].
    injection D as <-. injection F as <-. discriminate.
Qed.

(** * Irradiance and weather *)

Lemma estimate_solar_irradiance_linear (c : Q) :
  estimate_solar_irradiance c == 1000 - (15 # 2) * c.
Proof. unfold estimate_solar_irradiance. field. Qed.

Lemma irradiance_range_aux (c : Q) :
  0 <= c -> c <= 100 ->
  250 <= estimate_solar_irradiance c /\ estimate_solar_irradiance c <= 1000.
Proof.
  intros H0 H100. rewrite estimate_solar_irradiance_linear. split; lra.
Qed.

(** X15: with a cloud cover between 0 and 100 the estimate lies between 250
    and 1000 W/m2, which it takes at full cover and at a clear sky. *)
Theorem irradiance_range (cloud_cover : Q) :
  0 <= cloud_cover -> cloud_cover <= 100 ->
  250 <= estimate_solar_irradiance cloud_cover <= 1000 /\
  estimate_solar_irradiance 0 == 1000 /\
  estimate_solar_irradiance 100 == 250.
Proof.
  intros H0 H100. split; [| split; reflexivity].
  now apply irradiance_range_aux.
Qed.

(** X16: more cloud never raises the estimate, and nothing clamps it: for a
    cover of 134 percent or more it is negative, and for a cover of -1
    percent or less it is above the clear-sky 1000 W/m2. *)
Theorem irradiance_monotone_unclamped (c1 c2 : Q) :
  (c1 <= c2 -> estimate_solar_irradiance c2 <= estimate_solar_irradiance c1) /\
  (134 <= c1 -> estimate_solar_irradiance c1 < 0) /\
  (c1 <= -1 -> 1000 < estimate_solar_irradiance c1).
Proof.
  rewrite (estimate_solar_irradiance_linear c1),
          (estimate_solar_irradiance_linear c2).
  split; [intros H; lra |]. split; intros H; lra.
Qed.

Section Weather.

Variable requests_get : string -> outcome response.
Variable py_str : cell -> string.

(** X17: without an API key, and an empty string counts as none, the weather
    is not requested: the call raises the [ValueError] whatever the
    service would answer. *)
Theorem weather_needs_api_key (self : solar_audit) (latitude longitude : cell) :
  weather_api_key self = None \/ weather_api_key self = Some EmptyString ->
  get_weather_data requests_get py_str self latitude longitude
  = Failed (Builtin (ValueError "Weather API key not provided")).
Proof.
  intros [H | H]; unfold get_weather_data; rewrite H; reflexivity.
Qed.

(** X18: an answer with a status other than 200 gives no weather at all, only
    the exception "Failed to fetch weather data", whatever its body. *)
Theorem weather_status_not_200 (self : solar_audit) (latitude longitude : cell)
    (key : string) (answer : response) :
  weather_api_key self = Some key ->
  key <> EmptyString ->
  requests_get (weather_url py_str latitude longitude key) = Returned answer ->
  status_code answer <> 200%Z ->
  get_weather_data requests_get py_str self latitude longitude
  = Failed (PlainException "Failed to fetch weather data").
Proof.
  intros Hk Hne Hget Hs. unfold get_weather_data. rewrite Hk.
  cbn [key_missing]. apply String.eqb_neq in Hne. rewrite Hne, Hget.
  cbn [and_then]. apply Z.eqb_neq in Hs. now rewrite Hs.
Qed.

(** The steps of a successful call. *)
Lemma get_weather_data_Returned (self : solar_audit)
    (latitude longitude : cell) (w : weather) :
  get_weather_data requests_get py_str self latitude longitude = Returned w ->
  exists key answer data main clouds temp_value temp all,
    weather_api_key self = Some key /\ key <> EmptyString /\
    requests_get (weather_url py_str latitude longitude key) = Returned answer /\
    status_code answer = 200%Z /\
    body answer = Some data /\
    subscript data "main" = Returned main /\
    subscript main "temp" = Returned temp_value /\
    as_number temp_value = Returned temp /\
    subscript main "humidity" = Returned (humidity w) /\
    subscript data "clouds" = Returned clouds /\
    subscript clouds "all" = Returned (cloud_cover w) /\
    as_number (cloud_cover w) = Returned all /\
    temperature w = temp - (27315 # 100) /\
    solar_irradiance w = estimate_solar_irradiance all.
Proof.
  unfold get_weather_data.
  destruct (weather_api_key self) as [key |] eqn:Hk; cbn [key_missing];
    [| discriminate].
  destruct (String.eqb key EmptyString) eqn:Hne; [discriminate |].
  destruct (requests_get _) as [answer | e] eqn:Hget; cbn [and_then];
    [| discriminate].
  destruct (Z.eqb_spec (status_code answer) 200) as [Hs | Hs]; [| discriminate].
  unfold response_json.
  destruct (body answer) as [data |] eqn:Hb; cbn [and_then]; [| discriminate].
  destruct (subscript data "main") as [main | e] eqn:Hmain; cbn [and_then];
    [| discriminate].
  destruct (subscript main "temp") as [tv | e] eqn:Htv; cbn [and_then];
    [| discriminate].
  destruct (as_number tv) as [temp | e] eqn:Htemp; cbn [and_then];
    [| discriminate].
  destruct (subscript main "humidity") as [hum | e] eqn:Hhum; cbn [and_then];
    [| discriminate].
  destruct (subscript data "clouds") as [clouds | e] eqn:Hclouds;
    cbn [and_then]; [| discriminate].
  destruct (subscript clouds "all") as [cc | e] eqn:Hcc; cbn [and_then];
    [| discriminate].
  destruct (as_number cc) as [all | e] eqn:Hall; cbn [and_then];
    [| discriminate].
  intros [= <-]. exists key, answer, data, main, clouds, tv, temp, all.
  apply String.eqb_neq in Hne. cbn. repeat (split; [assumption + reflexivity |]).
  reflexivity.
Qed.

(** X19: in returned weather the irradiance is the estimate for the cloud
    cover returned with it, which is a number; for a cover between 0 and
    100 it lies between 250 and 1000. The temperature is the one of the
    answer less 273.15. *)
Theorem weather_irradiance_matches_cloud_cover (self : solar_audit)
    (latitude longitude : cell) (w : weather) :
  get_weather_data requests_get py_str self latitude longitude = Returned w ->
  exists c,
    as_number (cloud_cover w) = Returned c /\
    solar_irradiance w = estimate_solar_irradiance c /\
    (0 <= c -> c <= 100 ->
     250 <= solar_irradiance w /\ solar_irradiance w <= 1000).
Proof.
  intros H. apply get_weather_data_Returned in H.
  destruct H as [key [answer [data [main [clouds [tv [temp [all H]]]]]]]].
  destruct H as [_ [_ [_ [_ [_ [_ [_ [_ [_ [_ [_ [Hall [_ Hirr]]]]]]]]]]]]].
  exists all. split; [exact Hall |]. split; [exact Hirr |].
  intros H0 H100. rewrite Hirr.
  destruct (irradiance_range_aux all H0 H100) as [Hl Hu]. split; assumption.
Qed.

End Weather.

(** * Properties and the comprehensive report *)

Section Report.

Variable geocode : string -> option (Q * Q).
Variable timezone_at : Q -> Q -> option string.
Variable requests_get : string -> outcome response.
Variable py_str : cell -> string.
Variable calculate_solar_potential : Z -> Q.
Variable libm_pow : Q -> Q -> Q.

Let report_of :=
  generate_comprehensive_report requests_get py_str
    calculate_solar_potential libm_pow.

Lemma fetch_property_Some (self : solar_audit) (pid : Z) (t : list cell) :
  fetch_property self pid = Some t ->
  exists row, In row (properties self) /\ prop_id row = pid /\
              t = select_star_property row.
Proof.
  unfold fetch_property.
  destruct (find _ _) as [row |] eqn:F; [| discriminate].
  intros [= <-]. apply find_some in F. destruct F as [Hin Hid].
  apply Z.eqb_eq in Hid. eauto.
Qed.

Lemma fetch_property_None (self : solar_audit) (pid : Z) :
  fetch_property self pid = None <->
  forall row, In row (properties self) -> prop_id row <> pid.
Proof.
  unfold fetch_property. split.
  - destruct (find _ _) as [row |] eqn:F; [discriminate |].
    intros _ row Hin. apply (find_none _ _ F) in Hin. now apply Z.eqb_neq.
  - intros H. destruct (find _ _) as [row |] eqn:F; [| reflexivity].
    apply find_some in F. destruct F as [Hin Hid].
    apply Z.eqb_eq in Hid. now apply H in Hin.
Qed.

(** X20: a report for an id that no stored property has raises
    [ValueError("Property not found")] before anything else is looked at:
    with or without API key, weather or financial data. *)
Theorem report_of_unknown_property (self : solar_audit) (pid : Z) :
  (forall row, In row (properties self) -> prop_id row <> pid) ->
  report_of self pid = Failed (Builtin (ValueError "Property not found")).
Proof.
  intros H. apply fetch_property_None in H.
  unfold report_of, generate_comprehensive_report. now rewrite H.
Qed.

(** X21: for a stored property the weather comes first: without an API key the
    report raises the weather's [ValueError] even when the property has no
    financial data; once the weather is returned, a property without
    financial data makes the report raise the projection's [ValueError]. *)
Theorem report_errors_in_order (self : solar_audit) (pid : Z)
    (row : property_row) :
  fetch_property self pid = Some (select_star_property row) ->
  (key_missing (weather_api_key self) = true ->
   report_of self pid
   = Failed (Builtin (ValueError "Weather API key not provided"))) /\
  (forall w,
     get_weather_data requests_get py_str self
       (Val (PyFloat (prop_latitude row))) (Val (PyFloat (prop_longitude row)))
     = Returned w ->
     (forall r, In r (financial_data_table self) -> property_id r <> pid) ->
     report_of self pid
     = Failed (Builtin (ValueError "Financial data not found for property"))).
Proof.
  intros Hp. unfold report_of, generate_comprehensive_report. rewrite Hp.
  change (cell_at (select_star_property row) 2)
    with (Val (PyFloat (prop_latitude row))).
  change (cell_at (select_star_property row) 3)
    with (Val (PyFloat (prop_longitude row))).
  split.
  - intros Hk. unfold get_weather_data. rewrite Hk. reflexivity.
  - intros w Hw Hnone. rewrite Hw. cbn [and_then].
    unfold calculate_detailed_financials.
    rewrite (proj2 (fetchone_None _ _) Hnone). reflexivity.
Qed.

(** X22: a returned report describes the stored property of that id, with the
    weather at its coordinates, one documentation entry per photo of the
    property, in the order of the table, and the projection of the
    property over 25 years. *)
Theorem report_contents (self : solar_audit) (pid : Z)
    (rep : comprehensive_report) :
  report_of self pid = Returned rep ->
  exists row,
    In row (properties self) /\ prop_id row = pid /\
    cr_property_details rep =
      mk_property_details
        (Val (PyStr (prop_address row)))
        (mk_coordinates (Val (PyFloat (prop_latitude row)))
           (Val (PyFloat (prop_longitude row))))
        (text_cell (prop_timezone row))
        (mk_roof_specifications
           (Val (PyFloat (prop_roof_area row)))
           (Val (PyFloat (prop_roof_angle row)))
           (Val (PyStr (prop_orientation row)))
           (Val (PyFloat (prop_shading_factor row)))) /\
    get_weather_data requests_get py_str self
      (Val (PyFloat (prop_latitude row))) (Val (PyFloat (prop_longitude row)))
    = Returned (current_conditions rep) /\
    documentation rep =
      map (fun p => mk_photo_entry (Val (PyInt (photo_id p)))
                      (Val (PyStr (photo_type p)))
                      (Val (PyStr (photo_timestamp p)))
                      (text_cell (photo_notes p)))
          (filter (fun p => Z.eqb (photo_property_id p) pid) (photos self)) /\
    calculate_detailed_financials calculate_solar_potential libm_pow
      (financial_data_table self) pid 25 = Ok (financial_analysis rep).
Proof.
  unfold report_of, generate_comprehensive_report.
  destruct (fetch_property self pid) as [t |] eqn:Hp; [| discriminate].
  apply fetch_property_Some in Hp. destruct Hp as [row [Hin [Hid ->]]].
  change (cell_at (select_star_property row) 2)
    with (Val (PyFloat (prop_latitude row))).
  change (cell_at (select_star_property row) 3)
    with (Val (PyFloat (prop_longitude row))).
  destruct (get_weather_data _ _ _ _ _) as [w | e] eqn:Hw; cbn [and_then];
    [| discriminate].
  destruct (calculate_detailed_financials _ _ _ _ _) as [r | e] eqn:Hc;
    cbn [of_result and_then]; [| discriminate].
  intros [= <-]. exists row.
  split; [exact Hin |]. split; [exact Hid |]. split; [reflexivity |].
  split; [exact Hw |]. split; [| reflexivity].
  cbn [documentation]. unfold fetch_photos. rewrite map_map. reflexivity.
Qed.

(** ** Adding a property *)

Lemma find_app_found {A : Type} (p : A -> bool) (l l' : list A) (a : A) :
  find p l = Some a -> find p (l ++ l') = Some a.
Proof.
  induction l as [| x l IH]; [discriminate |].
  cbn [app find]. destruct (p x); auto.
Qed.

Lemma find_app_not_found {A : Type} (p : A -> bool) (l l' : list A) :
  find p l = None -> find p (l ++ l') = find p l'.
Proof.
  induction l as [| x l IH]; [reflexivity |].
  cbn [app find]. destruct (p x); [discriminate | auto].
Qed.

Lemma prop_id_le_max (rows : list property_row) (row : property_row) :
  In row rows -> (prop_id row <= fold_right Z.max 0 (map prop_id rows))%Z.
Proof.
  induction rows as [| x rows IH]; [intros [] |].
  intros [-> | Hin]; cbn [map fold_right]; [lia |].
  specialize (IH Hin). lia.
Qed.

(** X23: an address the geocoder does not know makes [add_property] raise
    [ValueError("Address not found")]. For a known address the property
    is stored under an id no stored property had, with the coordinates
    and the timezone of that address, and is what is fetched for this id;
    what is fetched for every other id, the photos, the financial data
    and the API key are as before. *)
Theorem add_property_stores_location (self : solar_audit) (now address : string)
    (area angle : Q) (orientation : string) (shading : Q) :
  (geocode address = None ->
   add_property geocode timezone_at self now address area angle
     orientation shading
   = Failed (Builtin (ValueError "Address not found"))) /\
  (forall latitude longitude,
     geocode address = Some (latitude, longitude) ->
     exists self' new_id,
       add_property geocode timezone_at self now address area angle
         orientation shading = Returned (self', new_id) /\
       (forall row, In row (properties self) -> prop_id row <> new_id) /\
       fetch_property self' new_id =
         Some [ Val (PyInt new_id); Val (PyStr address);
                Val (PyFloat latitude); Val (PyFloat longitude);
                text_cell (timezone_at latitude longitude);
                Val (PyFloat area); Val (PyFloat angle);
                Val (PyStr orientation); Val (PyFloat shading);
                Val (PyStr now) ] /\
       (forall other, other <> new_id ->
          fetch_property self' other = fetch_property self other) /\
       photos self' = photos self /\
       financial_data_table self' = financial_data_table self /\
       weather_api_key self' = weather_api_key self).
Proof.
  unfold add_property, get_location_data. split.
  { intros ->. reflexivity. }
  intros latitude longitude ->.
  cbn [and_then]. do 2 eexists. split; [reflexivity |].
  assert (Hfresh : forall row, In row (properties self) ->
                     prop_id row <> next_property_id self).
  { intros row Hin. apply prop_id_le_max in Hin.
    unfold next_property_id. lia. }
  split; [exact Hfresh |].
  split; [| split; [| repeat split]].
  - unfold fetch_property. cbn [properties].
    rewrite find_app_not_found.
    + cbn [find prop_id]. rewrite Z.eqb_refl. reflexivity.
    + destruct (find _ _) as [row |] eqn:F; [| reflexivity].
      apply find_some in F. destruct F as [Hin Hid].
      apply Z.eqb_eq in Hid. now apply Hfresh in Hin.
  - intros other Hne. unfold fetch_property. cbn [properties].
    destruct (find (fun r => (prop_id r =? other)%Z) (properties self))
      as [row |] eqn:F.
    + now rewrite (find_app_found _ _ _ _ F).
    + rewrite (find_app_not_found _ _ _ F). cbn [find prop_id].
      destruct (Z.eqb_spec (next_property_id self) other) as [E | _];
        [| reflexivity].
      exfalso. apply Hne. symmetry. exact E.
Qed.

End Report.

(** * Instances *)

Lemma yearly_table_years_witness :
  exists r,
    calculate_detailed_financials potential_14600 pow_not_consulted
      main_conn 1 3 = Ok r /\
    map year (yearly_analysis r) = [1; 2; 3]%Z /\
    List.length (yearly_analysis r) = 3%nat.
Proof.
  eexists. split; [vm_compute; reflexivity |].
  apply (yearly_table_years potential_14600 pow_not_consulted main_conn 1 3).
  vm_compute. reflexivity.
Defined.

Lemma negative_horizon_empty_report_witness :
  exists r,
    calculate_detailed_financials potential_14600 pow_not_consulted
      main_conn 1 (-1) = Ok r /\
    yearly_analysis r = [] /\
    total_25_year_savings (rep_summary r) == 0 /\
    average_annual_savings (rep_summary r) == 0 /\
    break_even_year (rep_summary r) = None.
Proof.
  eexists. split; [vm_compute; reflexivity |].
  apply (negative_horizon_empty_report potential_14600 pow_not_consulted
           main_conn 1 (-1)).
  - vm_compute. reflexivity.
  - lia.
Defined.

Lemma add_then_fetch_witness :
  fetchone
    (add_financial_data main_conn "2024-06-01 10:00:00" 1
       (15 # 100) 3 4000 5 15 150 (2 # 100)) 1
  = Some [ PyInt 2; PyInt 1; PyFloat (15 # 100); PyFloat 3; PyFloat 4000;
           PyFloat 5; PyInt 15; PyFloat 150; PyFloat (2 # 100);
           PyStr "2024-06-01 10:00:00" ].
Proof.
  apply (add_then_fetch main_conn "2024-06-01 10:00:00" 1
           (15 # 100) 3 4000 5 15 150 (2 # 100)).
  intros r [<- | []] _. vm_compute. reflexivity.
Defined.

Lemma add_earlier_keeps_fetched_witness :
  fetchone
    (add_financial_data main_conn "2023-06-01 10:00:00" 1
       (15 # 100) 3 4000 5 15 150 (2 # 100)) 1
  = Some (select_star main_row).
Proof.
  apply (add_earlier_keeps_fetched main_conn "2023-06-01 10:00:00" 1
           (15 # 100) 3 4000 5 15 150 (2 # 100) (select_star main_row)
           "2024-01-01 10:00:00").
  - reflexivity.
  - reflexivity.
  - vm_compute. reflexivity.
Defined.

Lemma add_leaves_other_properties_witness :
  fetchone
    (add_financial_data main_conn "2024-06-01 10:00:00" 2
       (15 # 100) 3 4000 5 15 150 (2 # 100)) 1
  = fetchone main_conn 1.
Proof.
  apply (add_leaves_other_properties main_conn "2024-06-01 10:00:00" 2 1
           (15 # 100) 3 4000 5 15 150 (2 # 100)).
  discriminate.
Defined.

Lemma irradiance_range_witness :
  0 <= 20 /\ 20 <= 100 /\
  250 <= estimate_solar_irradiance 20 <= 1000.
Proof.
  split; [vm_compute; discriminate |]. split; [vm_compute; discriminate |].
  apply (irradiance_range 20); vm_compute; discriminate.
Defined.

Lemma weather_needs_api_key_witness :
  weather_api_key keyless_audit = Some EmptyString /\
  get_weather_data demo_requests_get demo_py_str keyless_audit
    (Val (PyFloat (3398 # 100))) (Val (PyFloat (- (8104 # 100))))
  = Failed (Builtin (ValueError "Weather API key not provided")).
Proof.
  split; [reflexivity |].
  apply (weather_needs_api_key demo_requests_get demo_py_str keyless_audit).
  right. reflexivity.
Defined.

Lemma weather_status_not_200_witness :
  get_weather_data refusing_requests_get demo_py_str demo_audit
    (Val (PyFloat (3398 # 100))) (Val (PyFloat (- (8104 # 100))))
  = Failed (PlainException "Failed to fetch weather data").
Proof.
  apply (weather_status_not_200 refusing_requests_get demo_py_str demo_audit
           _ _ "your_api_key_here" refused_answer).
  - reflexivity.
  - discriminate.
  - reflexivity.
  - discriminate.
Defined.

Lemma weather_irradiance_matches_cloud_cover_witness :
  exists w c,
    get_weather_data demo_requests_get demo_py_str demo_audit
      (Val (PyFloat (3398 # 100))) (Val (PyFloat (- (8104 # 100))))
    = Returned w /\
    as_number (cloud_cover w) = Returned c /\
    solar_irradiance w = estimate_solar_irradiance c /\
    solar_irradiance w == 850 /\ temperature w == 20.
Proof.
  eexists.
  match goal with
  | |- exists c, get_weather_data _ _ _ ?la ?lo = Returned ?w /\ _ =>
      destruct (weather_irradiance_matches_cloud_cover demo_requests_get
                  demo_py_str demo_audit la lo w)
        as [c [Hc [Hirr _]]]; [vm_compute; reflexivity |]
  end.
  exists c. split; [reflexivity |]. split; [exact Hc |].
  split; [exact Hirr |]. split; vm_compute; reflexivity.
Defined.

Lemma report_of_unknown_property_witness :
  generate_comprehensive_report demo_requests_get demo_py_str
    potential_14600 pow_not_consulted demo_audit 7
  = Failed (Builtin (ValueError "Property not found")).
Proof.
  apply (report_of_unknown_property demo_requests_get demo_py_str
           potential_14600 pow_not_consulted demo_audit 7).
  intros row [<- | []]. discriminate.
Defined.

Lemma report_errors_in_order_witness :
  generate_comprehensive_report demo_requests_get demo_py_str
    potential_14600 pow_not_consulted keyless_audit 1
  = Failed (Builtin (ValueError "Weather API key not provided")) /\
  generate_comprehensive_report demo_requests_get demo_py_str
    potential_14600 pow_not_consulted audit_without_financial_data 1
  = Failed (Builtin (ValueError "Financial data not found for property")).
Proof.
  split.
  - apply (report_errors_in_order demo_requests_get demo_py_str
             potential_14600 pow_not_consulted keyless_audit 1 demo_property);
      reflexivity.
  - destruct (report_errors_in_order demo_requests_get demo_py_str
                potential_14600 pow_not_consulted
                audit_without_financial_data 1 demo_property eq_refl)
      as [_ H].
    eapply H.
    + vm_compute. reflexivity.
    + intros r [].
Defined.

Lemma report_contents_witness :
  exists rep,
    generate_comprehensive_report demo_requests_get demo_py_str
      potential_14600 pow_not_consulted demo_audit 1 = Returned rep /\
    pd_address (cr_property_details rep) = Val (PyStr sun_street) /\
    List.length (documentation rep) = 1%nat /\
    calculate_detailed_financials potential_14600 pow_not_consulted
      main_conn 1 25 = Ok (financial_analysis rep).
Proof.
  eexists. split; [vm_compute; reflexivity |].
  match goal with
  | |- pd_address (cr_property_details ?rep) = _ /\ _ =>
      destruct (report_contents demo_requests_get demo_py_str
                  potential_14600 pow_not_consulted demo_audit 1 rep)
        as [row [Hin [_ [Hpd [_ [Hdoc Hfin]]]]]];
        [vm_compute; reflexivity |]
  end.
  destruct Hin as [<- | []].
  split; [rewrite Hpd; reflexivity |].
  split; [rewrite Hdoc; reflexivity |].
  exact Hfin.
Defined.

Lemma add_property_stores_location_witness :
  demo_geocode "nowhere" = None /\
  add_property demo_geocode demo_timezone_at demo_audit
    "2024-02-01 09:00:00" "nowhere" 80 25 "E" (2 # 10)
  = Failed (Builtin (ValueError "Address not found")) /\
  demo_geocode sun_street = Some (3398 # 100, - (8104 # 100)) /\
  exists self' new_id,
    add_property demo_geocode demo_timezone_at demo_audit
      "2024-02-01 09:00:00" sun_street 80 25 "E" (2 # 10)
    = Returned (self', new_id) /\
    fetch_property self' new_id =
      Some [ Val (PyInt new_id); Val (PyStr sun_street);
             Val (PyFloat (3398 # 100)); Val (PyFloat (- (8104 # 100)));
             text_cell (demo_timezone_at (3398 # 100) (- (8104 # 100)));
             Val (PyFloat 80); Val (PyFloat 25); Val (PyStr "E");
             Val (PyFloat (2 # 10)); Val (PyStr "2024-02-01 09:00:00") ].
Proof.
  split; [reflexivity |].
  split.
  - apply (add_property_stores_location demo_geocode demo_timezone_at
             demo_audit "2024-02-01 09:00:00" "nowhere" 80 25 "E" (2 # 10)).
    reflexivity.
  - split; [reflexivity |].
    destruct (add_property_stores_location demo_geocode demo_timezone_at
                demo_audit "2024-02-01 09:00:00" sun_street 80 25 "E" (2 # 10))
      as [_ H].
    destruct (H (3398 # 100) (- (8104 # 100)) eq_refl)
      as [self' [new_id [Hadd [_ [Hfetch _]]]]].
    exists self', new_id. split; [exact Hadd | exact Hfetch].
Defined.

Lemma zero_horizon_raises_witness :
  Double.fetchone DoubleExamples.conn_flat_1000 1
  = Some (Double.select_star DoubleExamples.row_flat_1000) /\
  Double.calculate_detailed_financials DoubleExamples.potential_0
    DoubleExamples.pow_not_called DoubleExamples.conn_flat_1000 1 0
  = Double.Raise Double.ZeroDivisionError.
Proof.
  split; [reflexivity |].
  exact (proj2 (zero_horizon_raises DoubleExamples.potential_0
                  DoubleExamples.pow_not_called
                  DoubleExamples.conn_flat_1000 1)
           (Double.select_star DoubleExamples.row_flat_1000) eq_refl).
Defined.

Lemma yearly_table_is_the_recurrence_witness :
  exists r,
    Double.calculate_detailed_financials DoubleExamples.potential_14600
      DoubleExamples.pow_not_called DoubleExamples.conn_year_4 1 25
    = Double.Ok r /\
    Double.entry_at (Double.yearly_analysis r) 2
    = Some (Double.mk_year_entry 2 14454 1.061 14867.62 29374.62 58.75).
Proof.
  eexists. split; [vm_compute; reflexivity |].
  match goal with
  | |- Double.entry_at (Double.yearly_analysis ?r) _ = _ =>
      apply (yearly_table_is_the_recurrence DoubleExamples.potential_14600
               DoubleExamples.pow_not_called DoubleExamples.conn_year_4
               1 25 r (Double.select_star DoubleExamples.row_year_4)
               ltac:(vm_compute; reflexivity) eq_refl)
  end.
  split; [lia |]. vm_compute. reflexivity.
Defined.

Lemma summary_totals_last_year_witness :
  exists r e,
    Double.calculate_detailed_financials DoubleExamples.potential_14600
      DoubleExamples.pow_not_called DoubleExamples.conn_year_4 1 3
    = Double.Ok r /\
    Double.entry_at (Double.yearly_analysis r) 3 = Some e /\
    Double.total_25_year_savings (Double.rep_summary r)
    = Double.cumulative_savings e /\
    Double.total_25_year_savings (Double.rep_summary r) = 44611.42%float /\
    Double.average_annual_savings (Double.rep_summary r) = 14870.47%float.
Proof.
  eexists.
  match goal with
  | |- exists e, Double.calculate_detailed_financials _ _ _ _ _
                 = Double.Ok ?r /\ _ =>
      destruct (summary_totals_last_year DoubleExamples.potential_14600
                  DoubleExamples.pow_not_called DoubleExamples.conn_year_4
                  1 3 r (Double.select_star DoubleExamples.row_year_4)
                  ltac:(vm_compute; reflexivity) eq_refl ltac:(lia))
        as [[e [He Htot]] [Htot' Havg]]
  end.
  exists e. split; [vm_compute; reflexivity |].
  split; [exact He |]. split; [exact Htot |].
  split; [rewrite Htot' | rewrite Havg]; vm_compute; reflexivity.
Defined.

Lemma recorded_rate_is_next_years_witness :
  exists r e e',
    Double.calculate_detailed_financials DoubleExamples.potential_14600
      DoubleExamples.pow_not_called DoubleExamples.conn_year_4 1 3
    = Double.Ok r /\
    Double.entry_at (Double.yearly_analysis r) 1 = Some e /\
    Double.entry_at (Double.yearly_analysis r) 2 = Some e' /\
    Double.entry_electricity_rate e = 1.03%float /\
    Double.yearly_savings e'
    = Double.py_round (14600 * (1 - 0.005 * 2) * (1 * (1 + 0.03)) - 20)%float 2.
Proof.
  do 3 eexists. split; [vm_compute; reflexivity |].
  split; [vm_compute; reflexivity |].
  split; [vm_compute; reflexivity |].
  match goal with
  | |- Double.entry_electricity_rate ?e = _ /\ Double.yearly_savings ?e' = _ =>
      destruct (recorded_rate_is_next_years DoubleExamples.potential_14600
                  DoubleExamples.pow_not_called DoubleExamples.conn_year_4
                  1 3 _ (Double.select_star DoubleExamples.row_year_4)
                  ltac:(vm_compute; reflexivity) eq_refl)
        as [_ H];
      destruct (H 1%Z e ltac:(vm_compute; reflexivity))
        as [Hrate [_ [_ Hnext]]];
      split; [rewrite Hrate; vm_compute; reflexivity |];
      rewrite (Hnext e' ltac:(vm_compute; reflexivity))
  end.
  vm_compute. reflexivity.
Defined.

Lemma projection_after_add_finds_data_witness :
  (exists t, fetchone main_conn 1 = Some t) /\
  calculate_detailed_financials potential_14600 pow_not_consulted main_conn 1 0
  <> Raise (ValueError "Financial data not found for property").
Proof.
  exact (projection_after_add_finds_data potential_14600 pow_not_consulted
           [] "2024-01-01 10:00:00" 1 (12 # 100) (275 # 100) 5000 (45 # 10)
           20 200 (3 # 100) 0).
Defined.

Lemma irradiance_monotone_unclamped_witness :
  estimate_solar_irradiance 100 <= estimate_solar_irradiance 50 /\
  estimate_solar_irradiance 134 < 0 /\
  1000 < estimate_solar_irradiance (-1).
Proof.
  split; [| split].
  - apply (proj1 (irradiance_monotone_unclamped 50 100)). vm_compute. discriminate.
  - apply (proj1 (proj2 (irradiance_monotone_unclamped 134 0))).
    vm_compute. discriminate.
  - apply (proj2 (proj2 (irradiance_monotone_unclamped (-1) 0))).
    vm_compute. discriminate.
Defined.
